(** * The flow administration API of red/runtime-api/flows.js

    A shallow embedding of the module [red/runtime-api/flows.js] and the
    properties of its deployment protocol ([setFlows]), of its error
    normalisation ([updateFlow], [deleteFlow]) and of its credential
    redaction ([getNodeCredentials]).

    Every API function of the module has the shape
    [return new Promise(function(resolve,reject) { ... })].  The embedding
    runs the executor, then the reactions registered on the store's promise,
    and returns the final state: the settlement of the returned promise, the
    chronological trace of the calls made on the collaborators, and the
    rejections nobody handled. *)

From Stdlib Require Import ZArith.
From stdpp Require Import gmap strings list fin_maps.

Local Open Scope string_scope.
Local Open Scope Z_scope.

(** ** JavaScript values *)

(** The values the module looks into.  Numbers are modelled by the integers
    (what [404] and [409] are) and [NaN]; an object this layer never
    inspects (a node configuration, a flow, an array of nodes) is a
    reference compared by identity; [VBuiltin name] is the object of the
    engine a plain object inherits under [name] from [Object.prototype] (its
    methods, and for [__proto__] the prototype itself). *)
Inductive value : Type :=
  | VUndefined
  | VNull
  | VBool (b : bool)
  | VNum (n : Z)
  | VNaN
  | VStr (s : string)
  | VRef (o : positive)
  | VBuiltin (name : string).

Global Instance value_eq_dec : EqDecision value.
Proof. solve_decision. Defined.

(** [ToBoolean]: what [v || d], [!v] and [if (v)] test. *)
Definition truthy (v : value) : bool :=
  match v with
  | VUndefined | VNull | VNaN => false
  | VBool b => b
  | VNum n => negb (n =? 0)
  | VStr s => negb (String.eqb s "")
  | VRef _ => true
  | VBuiltin _ => true
  end.

(** [a || b] *)
Definition js_or (a b : value) : value := if truthy a then a else b.

(** [a === b]: [NaN] is not equal to itself. *)
Definition strict_eq (a b : value) : bool :=
  match a with
  | VNaN => false
  | _ => bool_decide (a = b)
  end.

(** [v != null]: neither [null] nor [undefined]. *)
Definition not_nullish (v : value) : bool :=
  match v with
  | VUndefined | VNull => false
  | _ => true
  end.

(** ** Errors *)

Inductive error_class : Type := ClsError | ClsTypeError | ClsReferenceError.

Global Instance error_class_eq_dec : EqDecision error_class.
Proof. solve_decision. Defined.

(** An error object: its class, its message, and the three properties the
    module reads or assigns. *)
Record error : Type := mkError {
  e_class : error_class;
  e_message : string;
  e_code : value;
  e_status : value;
  e_stack : value
}.

Global Instance error_eq_dec : EqDecision error.
Proof. solve_decision. Defined.

Definition class_name (c : error_class) : string :=
  match c with
  | ClsError => "Error"
  | ClsTypeError => "TypeError"
  | ClsReferenceError => "ReferenceError"
  end.

(** [err.toString()] of [Error.prototype]. *)
Definition err_toString (e : error) : string :=
  if String.eqb (e_message e) "" then class_name (e_class e)
  else String.append (class_name (e_class e)) (String.append ": " (e_message e)).

(** [err.status = v] and [err.code = v] *)
Definition set_status (v : value) (e : error) : error :=
  mkError (e_class e) (e_message e) (e_code e) v (e_stack e).
Definition set_code (v : value) (e : error) : error :=
  mkError (e_class e) (e_message e) v (e_status e) (e_stack e).

(** ** The collaborators *)

(** A promise handed out by the store, by what becomes of it. *)
Inductive promise (A : Type) : Type :=
  | Fulfils (a : A)
  | Rejects (e : error)
  | Pends.
Arguments Fulfils {A} a.
Arguments Rejects {A} e.
Arguments Pends {A}.

(** A call of a store method returns a promise or throws. *)
Inductive call (A : Type) : Type :=
  | Returns (p : promise A)
  | Raises (e : error).
Arguments Returns {A} p.
Arguments Raises {A} e.

(** The typedef [Flows]: [rev] is [None] when the object has no own
    property [rev]. *)
Record Flows : Type := mkFlows {
  rev : option value;
  flows : value
}.

(** [f.rev] *)
Definition get_rev (f : Flows) : value := default VUndefined (rev f).

(** One entry of a credential definition, [{type: ...}]. *)
Record CredentialField : Type := mkField { type : string }.

Global Instance CredentialField_eq_dec : EqDecision CredentialField.
Proof. solve_decision. Defined.

(** A credential definition, its own properties in the order [for ... in]
    enumerates them. *)
Definition CredentialDefinition : Type := list (string * CredentialField).

(** [runtime.nodes], as the store stands when the API function is called. *)
Record Nodes : Type := mkNodes {
  n_getFlows : Flows;
  n_loadFlows : call value;
  n_setFlows : value -> string -> call value;
  n_addFlow : value -> call value;
  n_getFlow : value -> value;
  n_updateFlow : value -> value -> call unit;
  n_removeFlow : value -> call unit;
  n_getCredentials : value -> option (gmap string value);
  n_getCredentialDefinition : value -> option CredentialDefinition
}.

(** A logger: [_] is its message catalogue lookup; [audit] and [warn] are
    recorded in the trace. *)
Record Log : Type := mkLog {
  l_tr : string -> string -> value
}.

(** The two names under which the module reaches a logger: the property
    [runtime.log], and the identifier [log], which the module neither
    declares nor imports. *)
Inductive logger : Type := RuntimeLog | FreeLog.

Global Instance logger_eq_dec : EqDecision logger.
Proof. solve_decision. Defined.

(** The surroundings of the module: [runtime] as [init] stored it, what the
    host binds to the free identifier [log] (nothing, when [None]), and the
    stack text the engine gives to an error it creates. *)
Record Host : Type := mkHost {
  h_nodes : Nodes;
  h_runtime_log : Log;
  h_log : option Log;
  h_stack : error_class -> value
}.

(** What the collaborators see, in the order it happens. *)
Inductive event : Type :=
  | EAudit (l : logger) (rec : list (string * value))
  | EWarn (l : logger) (msg : value)
  | EGetFlows
  | ELoadFlows
  | ESetFlows (flows : value) (type : string)
  | EAddFlow (flow : value)
  | EGetFlow (id : value)
  | EUpdateFlow (id flow : value)
  | ERemoveFlow (id : value)
  | EGetCredentials (id : value)
  | EGetCredentialDefinition (type : value).

Global Instance event_eq_dec : EqDecision event.
Proof. solve_decision. Defined.

(** The store's write entry points. *)
Definition is_write (ev : event) : bool :=
  match ev with
  | ESetFlows _ _ | ELoadFlows => true
  | _ => false
  end.

(** ** Promise executors *)

Module Exec.

Inductive settled (R : Type) : Type :=
  | Fulfilled (r : R)
  | Rejected (e : error).
Arguments Fulfilled {R} r.
Arguments Rejected {R} e.

(** The state of one API call: [outer] is the promise returned to the
    caller, [None] while it is pending. *)
Record state (R : Type) : Type := mkState {
  trace : list event;
  outer : option (settled R);
  unhandled : list error
}.
Arguments mkState {R} trace outer unhandled.
Arguments trace {R} s.
Arguments outer {R} s.
Arguments unhandled {R} s.

Inductive completion (A : Type) : Type :=
  | Normal (a : A)
  | Throw (e : error).
Arguments Normal {A} a.
Arguments Throw {A} e.

Definition M (R A : Type) : Type := state R -> completion A * state R.

Definition ret {R A} (a : A) : M R A := fun s => (Normal a, s).

Definition bind {R A B} (m : M R A) (k : A -> M R B) : M R B :=
  fun s =>
    match m s with
    | (Normal a, s') => k a s'
    | (Throw e, s') => (Throw e, s')
    end.

Definition throw {R A} (e : error) : M R A := fun s => (Throw e, s).

(** [try { body } catch (err) { handler }] *)
Definition try_catch {R A} (body : M R A) (handler : error -> M R A) : M R A :=
  fun s =>
    match body s with
    | (Normal a, s') => (Normal a, s')
    | (Throw e, s') => handler e s'
    end.

Definition emit {R} (ev : event) : M R unit :=
  fun s => (Normal tt, mkState (trace s ++ [ev]) (outer s) (unhandled s)).

(** [resolve] and [reject] settle the returned promise once; later calls
    have no effect. *)
Definition settle {R} (x : settled R) (s : state R) : state R :=
  match outer s with
  | None => mkState (trace s) (Some x) (unhandled s)
  | Some _ => s
  end.

Definition resolve {R} (r : R) : M R unit :=
  fun s => (Normal tt, settle (Fulfilled r) s).

Definition reject {R} (e : error) : M R unit :=
  fun s => (Normal tt, settle (Rejected e) s).

(** [p.then(f)]: the derived promise.  [f] runs when [p] fulfils; an
    exception of [f] rejects the derived promise. *)
Definition then_ {R A B} (p : promise A) (f : A -> M R B) : M R (promise B) :=
  fun s =>
    match p with
    | Fulfils a =>
        match f a s with
        | (Normal b, s') => (Normal (Fulfils b), s')
        | (Throw e, s') => (Normal (Rejects e), s')
        end
    | Rejects e => (Normal (Rejects e), s)
    | Pends => (Normal Pends, s)
    end.

(** [p.catch(g)] *)
Definition catch_ {R A} (p : promise A) (g : error -> M R A) : M R (promise A) :=
  fun s =>
    match p with
    | Fulfils a => (Normal (Fulfils a), s)
    | Rejects e =>
        match g e s with
        | (Normal a, s') => (Normal (Fulfils a), s')
        | (Throw e', s') => (Normal (Rejects e'), s')
        end
    | Pends => (Normal Pends, s)
    end.

(** The end of a chain of reactions: nothing is attached to the last
    derived promise, so its rejection is handled by nobody. *)
Definition drop {R A} (p : promise A) : M R unit :=
  fun s =>
    match p with
    | Rejects e => (Normal tt, mkState (trace s) (outer s) (unhandled s ++ [e]))
    | _ => (Normal tt, s)
    end.

(** A reaction runs as a job of its own: an exception escaping it reaches
    nobody. *)
Definition run_reaction {R} (s : state R) (job : M R unit) : state R :=
  match job s with
  | (Normal _, s') => s'
  | (Throw e, s') => mkState (trace s') (outer s') (unhandled s' ++ [e])
  end.

Definition init {R} : state R := mkState [] None [].

(** [new Promise(executor)].  The executor runs first; if it throws, the
    promise is rejected with the exception.  The reactions it registered
    on the store's promises run afterwards, outside of any [try] of the
    executor. *)
Definition new_Promise {R} (executor : M R (list (M R unit))) : state R :=
  match executor init with
  | (Normal reactions, s) => foldl run_reaction s reactions
  | (Throw e, s) => settle (Rejected e) s
  end.

End Exec.

Import Exec.

Global Instance M_ret {R} : MRet (M R) := fun A => @ret R A.
Global Instance M_bind {R} : MBind (M R) := fun A B k m => @bind R A B m k.

(** ** Reaching the collaborators *)

(** [new Error()] and the errors the engine raises. *)
Definition new_Error (h : Host) : error :=
  mkError ClsError "" VUndefined VUndefined (h_stack h ClsError).

Definition engine_error (h : Host) (c : error_class) (msg : string) : error :=
  mkError c msg VUndefined VUndefined (h_stack h c).

(** Evaluating the identifier [log]: a [ReferenceError] when the host binds
    nothing under that name. *)
Definition free_log {R} (h : Host) : M R Log :=
  match h_log h with
  | Some lg => mret lg
  | None => throw (engine_error h ClsReferenceError "log is not defined")
  end.

(** [runtime.log.audit(rec)] *)
Definition runtime_log_audit {R} (rec : list (string * value)) : M R unit :=
  emit (EAudit RuntimeLog rec).

(** [log.audit(rec)] *)
Definition log_audit {R} (h : Host) (rec : list (string * value)) : M R unit :=
  _ ← free_log h; emit (EAudit FreeLog rec).

(** [log.warn(log._(key,{message:msg}))] *)
Definition log_warn_tr {R} (h : Host) (key msg : string) : M R unit :=
  lg ← free_log h; emit (EWarn FreeLog (l_tr lg key msg)).

(** [log.warn(v)] *)
Definition log_warn {R} (h : Host) (v : value) : M R unit :=
  _ ← free_log h; emit (EWarn FreeLog v).

(** A call of an asynchronous store method. *)
Definition call_store {R A} (ev : event) (c : call A) : M R (promise A) :=
  emit ev;;
  match c with
  | Returns p => mret p
  | Raises e => throw e
  end.

(** [runtime.nodes.getFlows()] *)
Definition nodes_getFlows {R} (h : Host) : M R Flows :=
  emit EGetFlows;; mret (n_getFlows (h_nodes h)).

(** ** The API *)

(** *** getFlows *)

Definition getFlows (h : Host) : state Flows :=
  new_Promise (
    runtime_log_audit [("event", VStr "flows.get")];;
    f ← nodes_getFlows h;
    resolve f;;
    mret []).

(** *** setFlows *)

(** [opts] of [setFlows]: [opts.flows] is [None] when it is [undefined]. *)
Record SetFlowsOpts : Type := mkSetFlowsOpts {
  sf_flows : option Flows;
  sf_deploymentType : option string
}.

(** What [setFlows] resolves with: [{rev: flowId}]. *)
Record RevObj : Type := mkRevObj { r_rev : value }.

(** [opts.deploymentType||"full"] *)
Definition deployment_type (opts : SetFlowsOpts) : string :=
  match sf_deploymentType opts with
  | Some t => if String.eqb t "" then "full" else t
  | None => "full"
  end.

(** [apiPromise.then(function(flowId) {...}).catch(function(err) {...})] *)
Definition setFlows_reaction (h : Host) (deploymentType : string)
    (apiPromise : promise value) : M RevObj unit :=
  p ← then_ apiPromise (fun flowId => resolve (mkRevObj flowId));
  q ← catch_ p (fun err =>
         log_warn_tr h
           (String.append "api.flows.error-"
              (if decide (deploymentType = "reload") then "reload" else "save"))
           (e_message err);;
         log_warn h (e_stack err);;
         reject err);
  drop q.

Definition version_mismatch (h : Host) : error :=
  set_status (VNum 409) (set_code (VStr "version_mismatch") (new_Error h)).

Definition setFlows (h : Host) (opts : SetFlowsOpts) : state RevObj :=
  new_Promise (
    let deploymentType := deployment_type opts in
    runtime_log_audit [("event", VStr "flows.set"); ("type", VStr deploymentType)];;
    if decide (deploymentType = "reload") then
      apiPromise ← call_store ELoadFlows (n_loadFlows (h_nodes h));
      mret [setFlows_reaction h deploymentType apiPromise]
    else
      match sf_flows opts with
      | None =>
          (* flows.hasOwnProperty on undefined *)
          throw (engine_error h ClsTypeError
                   "Cannot read property 'hasOwnProperty' of undefined")
      | Some flows_ =>
          let write : M RevObj (list (M RevObj unit)) :=
            apiPromise ← call_store (ESetFlows (flows flows_) deploymentType)
                           (n_setFlows (h_nodes h) (flows flows_) deploymentType);
            mret [setFlows_reaction h deploymentType apiPromise] in
          match rev flows_ with
          | Some _ =>
              current ← nodes_getFlows h;
              let currentVersion := get_rev current in
              if negb (strict_eq currentVersion (get_rev flows_)) then
                reject (version_mismatch h);;
                mret []
              else write
          | None => write
          end
      end).

(** *** addFlow *)

(** [err.code||"unexpected_error"] *)
Definition error_code (err : error) : value :=
  js_or (e_code err) (VStr "unexpected_error").

Definition addFlow (h : Host) (flow : value) : state value :=
  new_Promise (
    p ← call_store (EAddFlow flow) (n_addFlow (h_nodes h) flow);
    mret [
      q ← then_ p (fun id =>
             runtime_log_audit [("event", VStr "flow.add"); ("id", id)];;
             resolve id);
      r ← catch_ q (fun err =>
             runtime_log_audit [("event", VStr "flow.add");
                                ("error", error_code err);
                                ("message", VStr (err_toString err))];;
             let err := set_status (VNum 400) err in
             reject err);
      drop r ]).

(** *** getFlow *)

Definition getFlow (h : Host) (id : value) : state value :=
  new_Promise (
    emit (EGetFlow id);;
    let flow := n_getFlow (h_nodes h) id in
    if truthy flow then
      runtime_log_audit [("event", VStr "flow.get"); ("id", id)];;
      resolve flow;;
      mret []
    else
      runtime_log_audit [("event", VStr "flow.get"); ("id", id);
                         ("error", VStr "not_found")];;
      let err := set_status (VNum 404) (new_Error h) in
      reject err;;
      mret []).

(** *** updateFlow *)

Definition updateFlow (h : Host) (id flow : value) : state value :=
  new_Promise (
    try_catch
      (p ← call_store (EUpdateFlow id flow) (n_updateFlow (h_nodes h) id flow);
       mret [
         q ← then_ p (fun _ =>
                runtime_log_audit [("event", VStr "flow.update"); ("id", id)];;
                resolve id);
         r ← catch_ q (fun err =>
                runtime_log_audit [("event", VStr "flow.update");
                                   ("error", error_code err);
                                   ("message", VStr (err_toString err))];;
                let err := set_status (VNum 400) err in
                reject err);
         drop r ])
      (fun err =>
         if strict_eq (e_code err) (VNum 404) then
           runtime_log_audit [("event", VStr "flow.update"); ("id", id);
                              ("error", VStr "not_found")];;
           let err := set_status (VNum 404) err in
           let err := set_code (VStr "not_found") err in
           reject err;;
           mret []
         else
           runtime_log_audit [("event", VStr "flow.update");
                              ("error", error_code err);
                              ("message", VStr (err_toString err))];;
           let err := set_status (VNum 400) err in
           reject err;;
           mret [])).

(** *** deleteFlow *)

Definition deleteFlow (h : Host) (id : value) : state value :=
  new_Promise (
    try_catch
      (p ← call_store (ERemoveFlow id) (n_removeFlow (h_nodes h) id);
       mret [
         q ← then_ p (fun _ =>
                log_audit h [("event", VStr "flow.remove"); ("id", id)];;
                resolve VUndefined);
         drop q ])
      (fun err =>
         if strict_eq (e_code err) (VNum 404) then
           log_audit h [("event", VStr "flow.remove"); ("id", id);
                        ("error", VStr "not_found")];;
           let err := set_status (VNum 404) err in
           let err := set_code (VStr "not_found") err in
           reject err;;
           mret []
         else
           log_audit h [("event", VStr "flow.remove"); ("id", id);
                        ("error", error_code err);
                        ("message", VStr (err_toString err))];;
           let err := set_status (VNum 400) err in
           reject err;;
           mret [])).

(** *** getNodeCredentials *)

(** The own properties of [Object.prototype], which every plain object
    inherits: eleven methods and the accessor [__proto__]. *)
Definition Object_prototype_names : list string :=
  ["constructor"; "__defineGetter__"; "__defineSetter__"; "hasOwnProperty";
   "__lookupGetter__"; "__lookupSetter__"; "isPrototypeOf";
   "propertyIsEnumerable"; "toString"; "valueOf"; "__proto__"; "toLocaleString"].

(** [credentials[cred]] on the plain object [credentials], given by its own
    properties: the own property when there is one, else what
    [Object.prototype] holds under that name, else [undefined]. *)
Definition get_cred (credentials : gmap string value) (cred : string) : value :=
  match credentials !! cred with
  | Some v => v
  | None =>
      if bool_decide (cred ∈ Object_prototype_names) then VBuiltin cred
      else VUndefined
  end.

(** [credentials[cred] != null && credentials[cred] !== ''] *)
Definition has_value (credentials : gmap string value) (cred : string) : bool :=
  not_nullish (get_cred credentials cred)
  && negb (strict_eq (get_cred credentials cred) (VStr "")).

(** [sendCredentials[key] = v] on the object [sendCredentials], which
    starts as [{}] and is given by its own properties: the assignment makes
    or overwrites the own property [key], except for [__proto__], where it
    reaches the setter of [Object.prototype] and makes no property (the
    setter installs [v] as prototype when [v] is an object; the prototype of
    the result is not part of this model). *)
Definition assign (sendCredentials : gmap string value) (key : string) (v : value)
    : gmap string value :=
  if String.eqb key "__proto__" then sendCredentials
  else <[key := v]> sendCredentials.

(** The body of the loop over the definition, for one field. *)
Definition send_field (credentials : gmap string value)
    (sendCredentials : gmap string value) (entry : string * CredentialField)
    : gmap string value :=
  let cred := fst entry in
  if String.eqb (type (snd entry)) "password" then
    let key := String.append "has_" cred in
    assign sendCredentials key (VBool (has_value credentials cred))
  else
    assign sendCredentials cred (js_or (get_cred credentials cred) (VStr "")).

(** The names of the fields a definition declares. *)
Definition field_names (definition : CredentialDefinition) : list string :=
  fst <$> definition.

(** [definition.hasOwnProperty(cred)]: the method inherited from
    [Object.prototype], unless the definition declares a field named
    [hasOwnProperty] itself; that field is an object, and calling it throws
    [not_a_function]. *)
Definition definition_hasOwnProperty {R} (not_a_function : error)
    (definition : CredentialDefinition) (cred : string) : M R bool :=
  if bool_decide ("hasOwnProperty" ∈ field_names definition)
  then throw not_a_function
  else mret (bool_decide (cred ∈ field_names definition)).

(** [for (var cred in definition) { if (definition.hasOwnProperty(cred)) ... }]
    over the fields [todo] still to enumerate. *)
Fixpoint send_loop {R} (not_a_function : error) (definition : CredentialDefinition)
    (credentials : gmap string value) (todo : list (string * CredentialField))
    (sendCredentials : gmap string value) : M R (gmap string value) :=
  match todo with
  | [] => mret sendCredentials
  | entry :: rest =>
      own ← definition_hasOwnProperty not_a_function definition (fst entry);
      if (own : bool) then
        send_loop not_a_function definition credentials rest
          (send_field credentials sendCredentials entry)
      else
        send_loop not_a_function definition credentials rest sendCredentials
  end.

(** What the loop leaves in [sendCredentials] when it runs to its end,
    starting from [{}]; over an [undefined] definition the loop does not
    turn. *)
Definition safe_credentials (definition : option CredentialDefinition)
    (credentials : gmap string value) : gmap string value :=
  foldl (send_field credentials) ∅ (default [] definition).
Arguments safe_credentials : simpl never.

(** The [TypeError] of calling [definition.hasOwnProperty] when it is a
    declared field. *)
Definition hasOwnProperty_not_a_function (h : Host) : error :=
  engine_error h ClsTypeError "definition.hasOwnProperty is not a function".

Definition getNodeCredentials (h : Host) (type_ id : value)
    : state (gmap string value) :=
  new_Promise (
    log_audit h [("event", VStr "credentials.get"); ("type", type_); ("id", id)];;
    emit (EGetCredentials id);;
    match n_getCredentials (h_nodes h) id with
    | None =>
        resolve ∅;;
        mret []
    | Some credentials =>
        emit (EGetCredentialDefinition type_);;
        let definition :=
          default [] (n_getCredentialDefinition (h_nodes h) type_) in
        sendCredentials ←
          send_loop (hasOwnProperty_not_a_function h) definition credentials
            definition ∅;
        resolve sendCredentials;;
        mret []
    end).

(** ** The vocabulary of the properties *)

(** No event of the trace is a call of a store write entry point. *)
Definition no_write {R} (s : state R) : Prop :=
  Forall (fun ev => is_write ev = false) (trace s).

(** The audit record [setFlows] writes first. *)
Definition flows_set_audit (opts : SetFlowsOpts) : event :=
  EAudit RuntimeLog [("event", VStr "flows.set"); ("type", VStr (deployment_type opts))].

Definition is_warn (ev : event) : bool :=
  match ev with
  | EWarn _ _ => true
  | _ => false
  end.

(** [h] with another active flow set in the store. *)
Definition with_current (cur : Flows) (h : Host) : Host :=
  let n := h_nodes h in
  mkHost
    (mkNodes cur (n_loadFlows n) (n_setFlows n) (n_addFlow n) (n_getFlow n)
       (n_updateFlow n) (n_removeFlow n) (n_getCredentials n)
       (n_getCredentialDefinition n))
    (h_runtime_log h) (h_log h) (h_stack h).

(** The two warnings [setFlows] logs when the store's promise rejects. *)
Definition rejection_warnings (lg : Log) (path : string) (e : error) : list event :=
  [EWarn FreeLog (l_tr lg (String.append "api.flows.error-" path) (e_message e));
   EWarn FreeLog (e_stack e)].

(** The outward shape of "not found": status 404 and the string code. *)
Definition not_found_outcome {R} (s : state R) : Prop :=
  exists e, outer s = Some (Rejected e)
            /\ e_status e = VNum 404
            /\ e_code e = VStr "not_found".

(** [err.status = 404; err.code = "not_found"] *)
Definition as_not_found (e : error) : error :=
  set_code (VStr "not_found") (set_status (VNum 404) e).

Definition not_found_audit (event_ : string) (id : value) (l : logger) : event :=
  EAudit l [("event", VStr event_); ("id", id); ("error", VStr "not_found")].

(** The key and the value one turn of the loop writes. *)
Definition field_key (entry : string * CredentialField) : string :=
  if String.eqb (type (snd entry)) "password"
  then String.append "has_" (fst entry)
  else fst entry.

Definition field_value (credentials : gmap string value)
    (entry : string * CredentialField) : value :=
  if String.eqb (type (snd entry)) "password"
  then VBool (has_value credentials (fst entry))
  else js_or (get_cred credentials (fst entry)) (VStr "").

(** The stored value is there, and is none of [undefined], [null], [""]. *)
Definition stored_value_set (credentials : gmap string value) (f : string) : Prop :=
  exists v, credentials !! f = Some v
            /\ v ≠ VUndefined /\ v ≠ VNull /\ v ≠ VStr "".

(** The credential definition [getNodeCredentials] loops over. *)
Definition declared (h : Host) (ty : value) : CredentialDefinition :=
  default [] (n_getCredentialDefinition (h_nodes h) ty).

(** The presence flags as the specification words them: every declared
    password has its boolean [has_] field in the output, true exactly when
    the stored value is set. *)
Definition presence_flags_stated (h : Host) (ty id : value) : Prop :=
  forall f d, (f, d) ∈ declared h ty -> type d = "password" ->
    exists out b,
      outer (getNodeCredentials h ty id) = Some (Fulfilled out)
      /\ out !! String.append "has_" f = Some (VBool b)
      /\ (b = true <->
          exists c, n_getCredentials (h_nodes h) id = Some c
                    /\ stored_value_set c f).

(** The pass-through as the specification words it: every declared field
    that is not a password is in the output under its name, with the stored
    value when there is one and [""] when there is none. *)
Definition pass_through_stated (h : Host) (ty id : value) : Prop :=
  forall f d, (f, d) ∈ declared h ty -> type d ≠ "password" ->
    exists out,
      outer (getNodeCredentials h ty id) = Some (Fulfilled out)
      /\ out !! f = Some (default (VStr "") (n_getCredentials (h_nodes h) id ≫= (.!! f))).

(** ** Sample hosts *)

Definition sample_log : Log :=
  mkLog (fun key msg => VStr (String.append key (String.append " " msg))).

(** A store at revision "r1" whose asynchronous operations never settle and
    which knows no flow and no credentials. *)
Definition sample_nodes : Nodes :=
  mkNodes (mkFlows (Some (VStr "r1")) (VRef 1))
    (Returns Pends) (fun _ _ => Returns Pends) (fun _ => Returns Pends)
    (fun _ => VUndefined)
    (fun _ _ => Returns Pends) (fun _ => Returns Pends)
    (fun _ => None) (fun _ => None).

Definition sample_host : Host :=
  mkHost sample_nodes sample_log (Some sample_log) (fun c => VStr (class_name c)).

Definition with_nodes (n : Nodes) (h : Host) : Host :=
  mkHost n (h_runtime_log h) (h_log h) (h_stack h).

Definition with_loadFlows (c : call value) (h : Host) : Host :=
  let n := h_nodes h in
  with_nodes
    (mkNodes (n_getFlows n) c (n_setFlows n) (n_addFlow n) (n_getFlow n)
       (n_updateFlow n) (n_removeFlow n) (n_getCredentials n)
       (n_getCredentialDefinition n)) h.

Definition with_setFlows (c : call value) (h : Host) : Host :=
  let n := h_nodes h in
  with_nodes
    (mkNodes (n_getFlows n) (n_loadFlows n) (fun _ _ => c) (n_addFlow n)
       (n_getFlow n) (n_updateFlow n) (n_removeFlow n) (n_getCredentials n)
       (n_getCredentialDefinition n)) h.

Definition with_updateFlow (c : call unit) (h : Host) : Host :=
  let n := h_nodes h in
  with_nodes
    (mkNodes (n_getFlows n) (n_loadFlows n) (n_setFlows n) (n_addFlow n)
       (n_getFlow n) (fun _ _ => c) (n_removeFlow n) (n_getCredentials n)
       (n_getCredentialDefinition n)) h.

Definition with_removeFlow (c : call unit) (h : Host) : Host :=
  let n := h_nodes h in
  with_nodes
    (mkNodes (n_getFlows n) (n_loadFlows n) (n_setFlows n) (n_addFlow n)
       (n_getFlow n) (n_updateFlow n) (fun _ => c) (n_getCredentials n)
       (n_getCredentialDefinition n)) h.

Definition with_credentials (c : option (gmap string value)) (h : Host) : Host :=
  let n := h_nodes h in
  with_nodes
    (mkNodes (n_getFlows n) (n_loadFlows n) (n_setFlows n) (n_addFlow n)
       (n_getFlow n) (n_updateFlow n) (n_removeFlow n) (fun _ => c)
       (n_getCredentialDefinition n)) h.

Definition with_definition (d : option CredentialDefinition) (h : Host) : Host :=
  let n := h_nodes h in
  with_nodes
    (mkNodes (n_getFlows n) (n_loadFlows n) (n_setFlows n) (n_addFlow n)
       (n_getFlow n) (n_updateFlow n) (n_removeFlow n) (n_getCredentials n)
       (fun _ => d)) h.

(** The store's error for an unknown id. *)
Definition error_404 : error := mkError ClsError "" (VNum 404) VUndefined VUndefined.

(** No credentials stored, one declared password. *)
Definition host_without_credentials : Host :=
  with_definition (Some [("password", mkField "password")]) sample_host.

(** A declared password [x] next to a declared text field named [has_x]. *)
Definition host_with_has_field : Host :=
  with_definition (Some [("x", mkField "password"); ("has_x", mkField "text")])
    (with_credentials (Some {[ "x" := VStr "secret"; "has_x" := VStr "note" ]})
       sample_host).

(** No credentials stored, one declared text field. *)
Definition host_without_credentials_text : Host :=
  with_definition (Some [("user", mkField "text")]) sample_host.

(** A stored port number 0 under a declared text field. *)
Definition host_with_zero : Host :=
  with_definition (Some [("port", mkField "text")])
    (with_credentials (Some {[ "port" := VNum 0 ]}) sample_host).

(** A declared text field named [has_x] before the declared password [x]. *)
Definition host_with_has_field_first : Host :=
  with_definition (Some [("has_x", mkField "text"); ("x", mkField "password")])
    (with_credentials (Some {[ "x" := VStr "secret"; "has_x" := VStr "note" ]})
       sample_host).

(** Payloads and options of [setFlows]. *)
Definition payload_stale : Flows := mkFlows (Some (VStr "r0")) (VRef 7).

Definition payload_norev : Flows := mkFlows None (VRef 7).

Definition opts_stale : SetFlowsOpts := mkSetFlowsOpts (Some payload_stale) (Some "full").

Definition opts_reload : SetFlowsOpts := mkSetFlowsOpts (Some payload_stale) (Some "reload").

Definition opts_norev : SetFlowsOpts := mkSetFlowsOpts (Some payload_norev) None.

Definition opts_nopayload : SetFlowsOpts := mkSetFlowsOpts None (Some "nodes").

(** An error of the store. *)
Definition error_boom : error :=
  mkError ClsError "boom" (VStr "invalid") VUndefined (VStr "at store").

(** Stores whose reload and write succeed, and fail. *)
Definition host_succeeding : Host :=
  with_loadFlows (Returns (Fulfils (VStr "r2")))
    (with_setFlows (Returns (Fulfils (VStr "r3"))) sample_host).

Definition host_failing : Host :=
  with_loadFlows (Returns (Rejects error_boom))
    (with_setFlows (Returns (Rejects error_boom)) sample_host).

(** Stores that signal an unknown id by throwing, and by rejecting. *)
Definition host_throwing_404 : Host :=
  with_removeFlow (Raises error_404)
    (with_updateFlow (Raises error_404) sample_host).

Definition host_rejecting_404 : Host :=
  with_removeFlow (Returns (Rejects error_404))
    (with_updateFlow (Returns (Rejects error_404)) sample_host).

(** The definition and the credentials of the redaction example. *)
Definition definition_alice : CredentialDefinition :=
  [("password", mkField "password"); ("user", mkField "other")].

Definition credentials_alice : gmap string value :=
  {[ "password" := VStr "secret"; "user" := VStr "alice" ]}.

Definition host_alice : Host :=
  with_definition (Some definition_alice)
    (with_credentials (Some credentials_alice) sample_host).

(** The same user with another password and a field nobody declared. *)
Definition credentials_alice' : gmap string value :=
  {[ "password" := VStr "hunter2"; "user" := VStr "alice"; "token" := VStr "t0" ]}.

(** An empty password. *)
Definition host_empty_password : Host :=
  with_definition (Some [("password", mkField "password")])
    (with_credentials (Some {[ "password" := VStr "" ]}) sample_host).

(** ** Further vocabulary and sample hosts *)

Definition is_audit (ev : event) : bool :=
  match ev with
  | EAudit _ _ => true
  | _ => false
  end.

(** [h] with another binding (or none) of the identifier [log]. *)
Definition with_log (ol : option Log) (h : Host) : Host :=
  mkHost (h_nodes h) (h_runtime_log h) ol (h_stack h).

(** The [ReferenceError] of the engine for the identifier [log]. *)
Definition log_not_defined (h : Host) : error :=
  engine_error h ClsReferenceError "log is not defined".

(** A payload that declares the revision of the sample store. *)
Definition payload_current : Flows := mkFlows (Some (VStr "r1")) (VRef 7).

Definition opts_current : SetFlowsOpts := mkSetFlowsOpts (Some payload_current) None.

(** A store whose reload and write throw. *)
Definition host_throwing : Host :=
  with_loadFlows (Raises error_boom) (with_setFlows (Raises error_boom) sample_host).

(** The failing store on a host that binds nothing to [log]. *)
Definition host_failing_unbound : Host := with_log None host_failing.

(** ** The module variable [runtime] and [init] *)

(** The object [init] receives: [runtime.nodes] and [runtime.log]. *)
Record Runtime : Type := mkRuntime {
  rt_nodes : Nodes;
  rt_log : Log
}.

(** What the module finds around it apart from [runtime]: the binding of
    the identifier [log], and the stacks of the engine's errors. *)
Record Engine : Type := mkEngine {
  g_log : option Log;
  g_stack : error_class -> value
}.

(** The host an initialised module runs on. *)
Definition host_of (g : Engine) (rt : Runtime) : Host :=
  mkHost (rt_nodes rt) (rt_log rt) (g_log g) (g_stack g).

(** [init: function(_runtime) { runtime = _runtime; }], on the module
    variable [var runtime;], which is [None] while it is [undefined]. *)
Definition api_init (_runtime : Runtime) (runtime : option Runtime) : option Runtime :=
  Some _runtime.

(** The [TypeError] of reading a property of [undefined]. *)
Definition undefined_property (g : Engine) (prop : string) : error :=
  mkError ClsTypeError
    (String.append "Cannot read property '" (String.append prop "' of undefined"))
    VUndefined VUndefined (g_stack g ClsTypeError).

(** [runtime.nodes] and [runtime.log] *)
Definition runtime_nodes {R} (g : Engine) (runtime : option Runtime) : M R Nodes :=
  match runtime with
  | Some rt => mret (rt_nodes rt)
  | None => throw (undefined_property g "nodes")
  end.

Definition runtime_log {R} (g : Engine) (runtime : option Runtime) : M R Log :=
  match runtime with
  | Some rt => mret (rt_log rt)
  | None => throw (undefined_property g "log")
  end.

(** [runtime.log.audit(rec)] *)
Definition api_runtime_log_audit {R} (g : Engine) (runtime : option Runtime)
    (rec : list (string * value)) : M R unit :=
  _ ← runtime_log g runtime; emit (EAudit RuntimeLog rec).

(** The identifier [log] *)
Definition api_free_log {R} (g : Engine) : M R Log :=
  match g_log g with
  | Some lg => mret lg
  | None =>
      throw (mkError ClsReferenceError "log is not defined" VUndefined VUndefined
               (g_stack g ClsReferenceError))
  end.

(** [log.audit(rec)] *)
Definition api_log_audit {R} (g : Engine) (rec : list (string * value)) : M R unit :=
  _ ← api_free_log g; emit (EAudit FreeLog rec).

(** [log.warn(log._(key,{message:msg}))] *)
Definition api_log_warn_tr {R} (g : Engine) (key msg : string) : M R unit :=
  lg ← api_free_log g; emit (EWarn FreeLog (l_tr lg key msg)).

(** [log.warn(v)] *)
Definition api_log_warn {R} (g : Engine) (v : value) : M R unit :=
  _ ← api_free_log g; emit (EWarn FreeLog v).

(** [new Error()] *)
Definition api_new_Error (g : Engine) : error :=
  mkError ClsError "" VUndefined VUndefined (g_stack g ClsError).

(** The functions of [api], on the module variable. *)

Definition api_getFlows (g : Engine) (runtime : option Runtime) : state Flows :=
  new_Promise (
    api_runtime_log_audit g runtime [("event", VStr "flows.get")];;
    n ← runtime_nodes g runtime;
    emit EGetFlows;;
    resolve (n_getFlows n);;
    mret []).

Definition api_setFlows_reaction (g : Engine) (deploymentType : string)
    (apiPromise : promise value) : M RevObj unit :=
  p ← then_ apiPromise (fun flowId => resolve (mkRevObj flowId));
  q ← catch_ p (fun err =>
         api_log_warn_tr g
           (String.append "api.flows.error-"
              (if decide (deploymentType = "reload") then "reload" else "save"))
           (e_message err);;
         api_log_warn g (e_stack err);;
         reject err);
  drop q.

Definition api_setFlows (g : Engine) (runtime : option Runtime)
    (opts : SetFlowsOpts) : state RevObj :=
  new_Promise (
    let deploymentType := deployment_type opts in
    api_runtime_log_audit g runtime
      [("event", VStr "flows.set"); ("type", VStr deploymentType)];;
    if decide (deploymentType = "reload") then
      n ← runtime_nodes g runtime;
      apiPromise ← call_store ELoadFlows (n_loadFlows n);
      mret [api_setFlows_reaction g deploymentType apiPromise]
    else
      match sf_flows opts with
      | None =>
          throw (mkError ClsTypeError
                   "Cannot read property 'hasOwnProperty' of undefined"
                   VUndefined VUndefined (g_stack g ClsTypeError))
      | Some flows_ =>
          let write : M RevObj (list (M RevObj unit)) :=
            n ← runtime_nodes g runtime;
            apiPromise ← call_store (ESetFlows (flows flows_) deploymentType)
                           (n_setFlows n (flows flows_) deploymentType);
            mret [api_setFlows_reaction g deploymentType apiPromise] in
          match rev flows_ with
          | Some _ =>
              n ← runtime_nodes g runtime;
              emit EGetFlows;;
              let currentVersion := get_rev (n_getFlows n) in
              if negb (strict_eq currentVersion (get_rev flows_)) then
                reject (set_status (VNum 409)
                          (set_code (VStr "version_mismatch") (api_new_Error g)));;
                mret []
              else write
          | None => write
          end
      end).

Definition api_addFlow (g : Engine) (runtime : option Runtime) (flow : value)
    : state value :=
  new_Promise (
    n ← runtime_nodes g runtime;
    p ← call_store (EAddFlow flow) (n_addFlow n flow);
    mret [
      q ← then_ p (fun id =>
             api_runtime_log_audit g runtime [("event", VStr "flow.add"); ("id", id)];;
             resolve id);
      r ← catch_ q (fun err =>
             api_runtime_log_audit g runtime
               [("event", VStr "flow.add");
                ("error", error_code err);
                ("message", VStr (err_toString err))];;
             let err := set_status (VNum 400) err in
             reject err);
      drop r ]).

Definition api_getFlow (g : Engine) (runtime : option Runtime) (id : value)
    : state value :=
  new_Promise (
    n ← runtime_nodes g runtime;
    emit (EGetFlow id);;
    let flow := n_getFlow n id in
    if truthy flow then
      api_runtime_log_audit g runtime [("event", VStr "flow.get"); ("id", id)];;
      resolve flow;;
      mret []
    else
      api_runtime_log_audit g runtime
        [("event", VStr "flow.get"); ("id", id); ("error", VStr "not_found")];;
      let err := set_status (VNum 404) (api_new_Error g) in
      reject err;;
      mret []).

Definition api_updateFlow (g : Engine) (runtime : option Runtime) (id flow : value)
    : state value :=
  new_Promise (
    try_catch
      (n ← runtime_nodes g runtime;
       p ← call_store (EUpdateFlow id flow) (n_updateFlow n id flow);
       mret [
         q ← then_ p (fun _ =>
                api_runtime_log_audit g runtime
                  [("event", VStr "flow.update"); ("id", id)];;
                resolve id);
         r ← catch_ q (fun err =>
                api_runtime_log_audit g runtime
                  [("event", VStr "flow.update");
                   ("error", error_code err);
                   ("message", VStr (err_toString err))];;
                let err := set_status (VNum 400) err in
                reject err);
         drop r ])
      (fun err =>
         if strict_eq (e_code err) (VNum 404) then
           api_runtime_log_audit g runtime
             [("event", VStr "flow.update"); ("id", id); ("error", VStr "not_found")];;
           let err := set_status (VNum 404) err in
           let err := set_code (VStr "not_found") err in
           reject err;;
           mret []
         else
           api_runtime_log_audit g runtime
             [("event", VStr "flow.update");
              ("error", error_code err);
              ("message", VStr (err_toString err))];;
           let err := set_status (VNum 400) err in
           reject err;;
           mret [])).

Definition api_deleteFlow (g : Engine) (runtime : option Runtime) (id : value)
    : state value :=
  new_Promise (
    try_catch
      (n ← runtime_nodes g runtime;
       p ← call_store (ERemoveFlow id) (n_removeFlow n id);
       mret [
         q ← then_ p (fun _ =>
                api_log_audit g [("event", VStr "flow.remove"); ("id", id)];;
                resolve VUndefined);
         drop q ])
      (fun err =>
         if strict_eq (e_code err) (VNum 404) then
           api_log_audit g
             [("event", VStr "flow.remove"); ("id", id); ("error", VStr "not_found")];;
           let err := set_status (VNum 404) err in
           let err := set_code (VStr "not_found") err in
           reject err;;
           mret []
         else
           api_log_audit g
             [("event", VStr "flow.remove"); ("id", id);
              ("error", error_code err);
              ("message", VStr (err_toString err))];;
           let err := set_status (VNum 400) err in
           reject err;;
           mret [])).

Definition api_getNodeCredentials (g : Engine) (runtime : option Runtime)
    (type_ id : value) : state (gmap string value) :=
  new_Promise (
    api_log_audit g [("event", VStr "credentials.get"); ("type", type_); ("id", id)];;
    n ← runtime_nodes g runtime;
    emit (EGetCredentials id);;
    match n_getCredentials n id with
    | None =>
        resolve ∅;;
        mret []
    | Some credentials =>
        n' ← runtime_nodes g runtime;
        emit (EGetCredentialDefinition type_);;
        let definition := default [] (n_getCredentialDefinition n' type_) in
        sendCredentials ←
          send_loop
            (mkError ClsTypeError "definition.hasOwnProperty is not a function"
               VUndefined VUndefined (g_stack g ClsTypeError))
            definition credentials definition ∅;
        resolve sendCredentials;;
        mret []
    end).

(** A call on one of the collaborators of [runtime]. *)
Definition is_runtime_event (ev : event) : bool :=
  match ev with
  | EAudit RuntimeLog _ | EWarn RuntimeLog _ => true
  | EAudit FreeLog _ | EWarn FreeLog _ => false
  | _ => true
  end.

(** The sample store and logger, as a runtime and an engine. *)
Definition sample_runtime : Runtime := mkRuntime sample_nodes sample_log.

Definition sample_engine : Engine :=
  mkEngine (Some sample_log) (fun c => VStr (class_name c)).

(** The call was rejected with an error of class [c] and status [st], no
    collaborator of [runtime] was reached and no rejection is left over. *)
Definition rejected_untouched {R} (c : error_class) (st : value) (s : state R) : Prop :=
  (exists e, outer s = Some (Rejected e) /\ e_class e = c /\ e_status e = st)
  /\ Forall (fun ev => is_runtime_event ev = false) (trace s)
  /\ unhandled s = [].

(** The definition of the redaction example, its fields the other way round. *)
Definition definition_alice_swapped : CredentialDefinition :=
  [("user", mkField "other"); ("password", mkField "password")].




Definition with_addFlow (c : call value) (h : Host) : Host :=
  let n := h_nodes h in
  with_nodes
    (mkNodes (n_getFlows n) (n_loadFlows n) (n_setFlows n) (fun _ => c)
       (n_getFlow n) (n_updateFlow n) (n_removeFlow n) (n_getCredentials n)
       (n_getCredentialDefinition n)) h.

Definition with_getFlow (flow : value) (h : Host) : Host :=
  let n := h_nodes h in
  with_nodes
    (mkNodes (n_getFlows n) (n_loadFlows n) (n_setFlows n) (n_addFlow n)
       (fun _ => flow) (n_updateFlow n) (n_removeFlow n) (n_getCredentials n)
       (n_getCredentialDefinition n)) h.

(** An error of the store whose code is the string "404". *)
Definition error_string_404 : error :=
  mkError ClsError "no such flow" (VStr "404") VUndefined VUndefined.

(** An error of the store without a code. *)
Definition error_plain : error :=
  mkError ClsTypeError "flow.nodes is not iterable" VUndefined VUndefined VUndefined.

(** Stores for the single-flow operations. *)
Definition host_flow_ok : Host :=
  with_addFlow (Returns (Fulfils (VStr "f9")))
    (with_getFlow (VRef 9)
       (with_updateFlow (Returns (Fulfils tt))
          (with_removeFlow (Returns (Fulfils tt)) sample_host))).

Definition host_flow_rejecting : Host :=
  with_addFlow (Returns (Rejects error_plain)) sample_host.

Definition host_flow_throwing : Host :=
  with_addFlow (Raises error_plain)
    (with_updateFlow (Raises error_string_404)
       (with_removeFlow (Raises error_string_404) sample_host)).

(** ** Further sample hosts *)

(** A deployment of type nodes without [rev]. *)
Definition opts_nodes : SetFlowsOpts := mkSetFlowsOpts (Some payload_norev) (Some "nodes").

(** A declared password named [constructor], and nothing stored under it. *)
Definition host_constructor_password : Host :=
  with_definition (Some [("constructor", mkField "password")])
    (with_credentials (Some ∅) sample_host).

(** A declared password named [hasOwnProperty]. *)
Definition host_hasOwnProperty_password : Host :=
  with_definition (Some [("hasOwnProperty", mkField "password")])
    (with_credentials (Some {[ "hasOwnProperty" := VStr "secret" ]}) sample_host).

(** A declared text field named [toString], and nothing stored under it. *)
Definition host_toString_text : Host :=
  with_definition (Some [("toString", mkField "text")])
    (with_credentials (Some ∅) sample_host).

(** A declared text field named [__proto__] next to the field [user]. *)
Definition host_proto_text : Host :=
  with_definition (Some [("__proto__", mkField "text"); ("user", mkField "text")])
    (with_credentials (Some {[ "user" := VStr "alice" ]}) sample_host).

(** A declared text field named [hasOwnProperty]. *)
Definition host_hasOwnProperty_text : Host :=
  with_definition (Some [("hasOwnProperty", mkField "text")])
    (with_credentials (Some {[ "hasOwnProperty" := VStr "x" ]}) sample_host).

(** The redaction example on the module as it stands, where nothing is bound
    to [log]. *)
Definition host_alice_unbound : Host := with_log None host_alice.

(** ** Properties *)

(** *** Symbolic execution *)

Ltac exec :=
  unfold new_Promise, setFlows_reaction, call_store, nodes_getFlows,
    log_warn_tr, log_warn, log_audit, runtime_log_audit, free_log,
    try_catch, then_, catch_, drop, resolve, reject, emit, throw, settle,
    run_reaction, init, mbind, M_bind, bind, mret, M_ret, ret;
  cbn.

Ltac decided := apply (bool_decide_unpack _); vm_compute; exact I.

Ltac in_list H :=
  repeat (apply elem_of_cons in H as [H|H]; [try discriminate H|]);
  try (apply elem_of_nil in H; contradiction).

(** *** Values *)

Lemma strict_eq_true (a b : value) : strict_eq a b = true -> a = b.
Proof.
  unfold strict_eq. destruct a; try discriminate;
    intros H; apply bool_decide_eq_true in H; exact H.
Qed.

Lemma strict_eq_differ (a b : value) : a ≠ b -> strict_eq a b = false.
Proof.
  intros Hne. destruct (strict_eq a b) eqn:E; [|reflexivity].
  destruct Hne. apply strict_eq_true, E.
Qed.

Lemma append_has_inj (f g : string) :
  String.append "has_" f = String.append "has_" g -> f = g.
Proof. intros H. vm_compute in H. congruence. Qed.

(** *** setFlows *)

Lemma deployment_type_reload (opts : SetFlowsOpts) :
  deployment_type opts = "reload" <-> sf_deploymentType opts = Some "reload".
Proof.
  unfold deployment_type. destruct (sf_deploymentType opts) as [t|].
  - destruct (String.eqb_spec t "") as [->|Hne].
    + split; intros H; discriminate H.
    + split; intros H; [rewrite H; reflexivity | injection H as H; exact H].
  - split; discriminate.
Qed.

(** C1. A payload that declares a [rev] different from the revision the
    store reports when [setFlows] is called (and a deployment type other than
    reload) is rejected with status 409 and code version_mismatch; the store
    is read once and none of its write entry points is called. *)
Theorem setFlows_version_conflict (h : Host) (opts : SetFlowsOpts)
    (payload : Flows) (r : value) :
  sf_deploymentType opts ≠ Some "reload" ->
  sf_flows opts = Some payload ->
  rev payload = Some r ->
  r ≠ get_rev (n_getFlows (h_nodes h)) ->
  let s := setFlows h opts in
  (exists e, outer s = Some (Rejected e)
             /\ e_status e = VNum 409
             /\ e_code e = VStr "version_mismatch"
             /\ e = version_mismatch h)
  /\ trace s = [flows_set_audit opts; EGetFlows]
  /\ no_write s.
Proof.
  intros Hty Hfl Hrev Hne s. subst s. unfold setFlows, no_write.
  destruct (decide (deployment_type opts = "reload")) as [Hr|Hr].
  { apply deployment_type_reload in Hr. contradiction. }
  assert (Hpay : get_rev payload = r) by (unfold get_rev; rewrite Hrev; reflexivity).
  rewrite Hfl, Hrev. exec.
  rewrite Hpay, strict_eq_differ by congruence.
  exec. split; [|split].
  - eexists. repeat split; reflexivity.
  - reflexivity.
  - repeat constructor.
Qed.

(** C2. With deployment type reload, [setFlows] asks the store to load its
    flows again: it neither reads the active revision nor calls the store's
    set-operation, whatever payload (with or without [rev]) comes along; what
    the reload produces becomes the [rev] of the result. *)
Theorem setFlows_reload_bypass (h : Host) (opts : SetFlowsOpts) :
  sf_deploymentType opts = Some "reload" ->
  let s := setFlows h opts in
  (EGetFlows ∉ trace s)
  /\ (forall fl ty, ESetFlows fl ty ∉ trace s)
  /\ (exists rest, trace s = flows_set_audit opts :: ELoadFlows :: rest
                   /\ Forall (fun ev => is_warn ev = true) rest)
  /\ (forall r, n_loadFlows (h_nodes h) = Returns (Fulfils r) ->
                outer s = Some (Fulfilled (mkRevObj r))).
Proof.
  intros Hty s. subst s. apply deployment_type_reload in Hty.
  unfold setFlows, flows_set_audit. rewrite Hty.
  destruct (decide ("reload" = "reload")) as [_|Hn]; [|contradiction].
  exec.
  destruct (n_loadFlows (h_nodes h)) as [[r|e|]|e]; cbn;
    destruct (h_log h) as [lg|]; cbn;
    (split; [intros H; in_list H|]);
    (split; [intros fl ty H; in_list H|]);
    (split; [eexists; split; [reflexivity|repeat constructor]|]);
    intros r' Hr'; try discriminate Hr'; injection Hr' as ->; reflexivity.
Qed.

(** C10. Without a payload ([opts.flows] undefined) and with a deployment
    type other than reload, the test for [rev] throws inside the executor:
    the returned promise is rejected with that [TypeError], after the audit
    record and without any call of the store. *)
Theorem setFlows_missing_payload (h : Host) (opts : SetFlowsOpts) :
  sf_deploymentType opts ≠ Some "reload" ->
  sf_flows opts = None ->
  let s := setFlows h opts in
  (exists e, outer s = Some (Rejected e) /\ e_class e = ClsTypeError)
  /\ trace s = [flows_set_audit opts]
  /\ no_write s.
Proof.
  intros Hty Hfl s. subst s. unfold setFlows, flows_set_audit, no_write.
  destruct (decide (deployment_type opts = "reload")) as [Hr|Hr].
  { apply deployment_type_reload in Hr. contradiction. }
  rewrite Hfl. exec. split; [|split].
  - eexists. split; reflexivity.
  - reflexivity.
  - repeat constructor.
Qed.

(** *** setFlows, the deployment type and the catch reaction *)

(** [ty] is the deployment type the options give: the one they carry, or
    "full" when they carry none or the empty string. *)
Lemma deployment_type_given (opts : SetFlowsOpts) (ty : string) :
  ((sf_deploymentType opts = None \/ sf_deploymentType opts = Some "") /\ ty = "full")
  \/ (sf_deploymentType opts = Some ty /\ ty ≠ "") ->
  deployment_type opts = ty.
Proof.
  unfold deployment_type. intros [[[H|H] ->]|[H Hne]]; rewrite H; try reflexivity.
  destruct (String.eqb_spec ty "") as [Heq|_]; [contradiction|reflexivity].
Qed.

(** C5. A payload without [rev] goes to the store's set-operation with the
    flow array and the deployment type of the call: the type the options
    carry when it is neither empty nor reload, and "full" when they carry
    none.  The audit record names the same type, the active revision is not
    read, so the run is the same whatever that revision is; when the store
    fulfils with a revision, the result is [{rev: revision}]. *)
Theorem setFlows_unconditional_write (h : Host) (opts : SetFlowsOpts)
    (payload : Flows) (ty : string) :
  ((sf_deploymentType opts = None \/ sf_deploymentType opts = Some "") /\ ty = "full")
  \/ (sf_deploymentType opts = Some ty /\ ty ≠ "" /\ ty ≠ "reload") ->
  sf_flows opts = Some payload ->
  rev payload = None ->
  let s := setFlows h opts in
  (exists rest,
      trace s = EAudit RuntimeLog [("event", VStr "flows.set"); ("type", VStr ty)]
                :: ESetFlows (flows payload) ty :: rest
      /\ Forall (fun ev => is_warn ev = true) rest)
  /\ (EGetFlows ∉ trace s)
  /\ (forall cur, setFlows (with_current cur h) opts = s)
  /\ (forall newRev,
        n_setFlows (h_nodes h) (flows payload) ty = Returns (Fulfils newRev) ->
        outer s = Some (Fulfilled (mkRevObj newRev))).
Proof.
  intros Hgiven Hfl Hrev s. subst s.
  assert (Hty : deployment_type opts = ty /\ ty ≠ "reload").
  { destruct Hgiven as [[H ->]|(H & Hne & Hnr)].
    - split; [|discriminate]. apply deployment_type_given. left. split; auto.
    - split; [|exact Hnr]. apply deployment_type_given. right. split; auto. }
  destruct Hty as [Hty Hnr]. unfold setFlows. rewrite Hty.
  destruct (decide (ty = "reload")) as [Hr|_]; [contradiction|].
  rewrite Hfl, Hrev. exec.
  destruct (n_setFlows (h_nodes h) (flows payload) ty) as [[r|e|]|e]; cbn;
    destruct (h_log h) as [lg|]; cbn;
    (split; [eexists; split; [reflexivity|repeat constructor]|]);
    (split; [intros H; in_list H|]);
    (split; [reflexivity|]);
    intros r' Hr'; try discriminate Hr'; injection Hr' as ->; reflexivity.
Qed.

(** C7. The module never declares the identifier [log] its catch reaction
    logs through.  Where nothing is bound to it, a rejection of the store's
    write, or reload, is neither logged nor passed on: the reaction stops at
    [log.warn] with a [ReferenceError] nobody handles and the promise
    [setFlows] returned stays pending.  On the same store with [log] bound
    the two warnings are logged and the store's error is passed on. *)
Theorem setFlows_store_rejection_reference_error :
  setFlows host_failing_unbound opts_norev
  = mkState [EAudit RuntimeLog [("event", VStr "flows.set"); ("type", VStr "full")];
             ESetFlows (VRef 7) "full"]
      None [log_not_defined host_failing_unbound]
  /\ setFlows host_failing_unbound opts_reload
     = mkState [EAudit RuntimeLog [("event", VStr "flows.set"); ("type", VStr "reload")];
                ELoadFlows]
         None [log_not_defined host_failing_unbound]
  /\ setFlows host_failing opts_norev
     = mkState [EAudit RuntimeLog [("event", VStr "flows.set"); ("type", VStr "full")];
                ESetFlows (VRef 7) "full";
                EWarn FreeLog (VStr "api.flows.error-save boom");
                EWarn FreeLog (VStr "at store")]
         (Some (Rejected error_boom)) [].
Proof. repeat split. Qed.


(** What the catch reaction of [setFlows] does on a host where [log] is
    bound: when the store's reload, or the store's write, was called and its
    promise rejects, the two warnings are logged under the key of the path
    taken (reload or save) and the call rejects with the store's error as it
    is.  Every rejection is then either an error the store gave (thrown or
    rejected), or the version mismatch made here, or the [TypeError] of a
    missing payload, the latter two without a call of a store write entry
    point. *)
Lemma setFlows_rejection_bound_log (h : Host) (lg : Log) (opts : SetFlowsOpts) :
  h_log h = Some lg ->
  let s := setFlows h opts in
  (forall e, ELoadFlows ∈ trace s ->
      n_loadFlows (h_nodes h) = Returns (Rejects e) ->
      outer s = Some (Rejected e)
      /\ trace s = ([flows_set_audit opts; ELoadFlows]
                    ++ rejection_warnings lg "reload" e)%list)
  /\ (forall fl ty e, ESetFlows fl ty ∈ trace s ->
      n_setFlows (h_nodes h) fl ty = Returns (Rejects e) ->
      outer s = Some (Rejected e)
      /\ exists pre,
           trace s = (pre ++ ESetFlows fl ty :: rejection_warnings lg "save" e)%list)
  /\ (forall e, outer s = Some (Rejected e) ->
      (ELoadFlows ∈ trace s
         /\ (n_loadFlows (h_nodes h) = Returns (Rejects e)
             \/ n_loadFlows (h_nodes h) = Raises e))
      \/ (exists fl ty, ESetFlows fl ty ∈ trace s
         /\ (n_setFlows (h_nodes h) fl ty = Returns (Rejects e)
             \/ n_setFlows (h_nodes h) fl ty = Raises e))
      \/ (e = version_mismatch h /\ no_write s)
      \/ (e_class e = ClsTypeError /\ sf_flows opts = None /\ no_write s)).
Proof.
  intros Hlog s. subst s.
  unfold setFlows, setFlows_reaction, flows_set_audit, no_write,
    rejection_warnings.
  destruct (decide (deployment_type opts = "reload")) as [Hr|Hr].
  - rewrite Hr. exec. rewrite Hlog.
    destruct (n_loadFlows (h_nodes h)) as [[r|e0|]|e0]; cbn.
    all: split; [intros e _ He; try discriminate He;
                 injection He as ->; split; reflexivity|].
    all: split; [intros fl ty e H; in_list H|].
    all: intros e He; try discriminate He; injection He as <-.
    all: left; split; [do 1 constructor; constructor|]; auto.
  - destruct (sf_flows opts) as [payload|].
    2:{ exec. split; [intros e H; in_list H|].
        split; [intros fl ty e H; in_list H|].
        intros e He. injection He as <-. right. right. right.
        split; [reflexivity|]. split; [reflexivity|]. repeat constructor. }
    destruct (rev payload) as [r|] eqn:Hrev; exec.
    + destruct (strict_eq (get_rev (n_getFlows (h_nodes h))) (get_rev payload));
        cbn.
      * rewrite Hlog.
        destruct (n_setFlows (h_nodes h) (flows payload) (deployment_type opts))
          as [[r0|e0|]|e0] eqn:Hset; cbn.
        all: split; [intros e H; in_list H|].
        all: split; [intros fl ty e H He; in_list H; injection H as -> ->;
                     rewrite Hset in He; try discriminate He;
                     injection He as ->;
                     (split; [reflexivity|]);
                     exists [flows_set_audit opts; EGetFlows]; reflexivity|].
        all: intros e He; try discriminate He; injection He as <-.
        all: right; left; exists (flows payload), (deployment_type opts).
        all: split; [do 2 constructor; constructor|]; auto.
      * split; [intros e H; in_list H|].
        split; [intros fl ty e H; in_list H|].
        intros e He. injection He as <-. right. right. left.
        split; [reflexivity|]. repeat constructor.
    + rewrite Hlog.
      destruct (n_setFlows (h_nodes h) (flows payload) (deployment_type opts))
        as [[r0|e0|]|e0] eqn:Hset; cbn.
      all: split; [intros e H; in_list H|].
      all: split; [intros fl ty e H He; in_list H; injection H as -> ->;
                   rewrite Hset in He; try discriminate He;
                   injection He as ->;
                   (split; [reflexivity|]);
                   exists [flows_set_audit opts]; reflexivity|].
      all: intros e He; try discriminate He; injection He as <-.
      all: right; left; exists (flows payload), (deployment_type opts).
      all: split; [constructor; constructor|]; auto.
Qed.


(** What [setFlows] does with a rejection of the store on a host that binds
    nothing to [log]: the reaction stops at the first [log.warn] with a
    [ReferenceError] nobody handles, and the returned promise stays pending. *)
Lemma setFlows_rejection_unbound_log (h : Host) (opts : SetFlowsOpts) (e : error) :
  h_log h = None ->
  sf_deploymentType opts = Some "reload" ->
  n_loadFlows (h_nodes h) = Returns (Rejects e) ->
  let s := setFlows h opts in
  outer s = None
  /\ unhandled s = [engine_error h ClsReferenceError "log is not defined"]
  /\ trace s = [flows_set_audit opts; ELoadFlows].
Proof.
  intros Hlog Hty Hload s. subst s. apply deployment_type_reload in Hty.
  unfold setFlows, flows_set_audit. rewrite Hty.
  destruct (decide ("reload" = "reload")) as [_|Hn]; [|contradiction].
  exec. rewrite Hload, Hlog. cbn. repeat split.
Qed.

(** *** updateFlow and deleteFlow *)

(** C4, as amended.  When the store throws an error whose [code] is the
    number 404 out of its update-operation, [updateFlow] rejects with status
    404 and code "not_found", after the audit record.  An error that reaches
    [updateFlow] through rejection of the store's promise, whatever its code,
    is rejected under status 400 with the code the store gave it. *)
Theorem not_found_normalisation (h : Host) (id flow : value) :
  (forall e, e_code e = VNum 404 ->
     n_updateFlow (h_nodes h) id flow = Raises e ->
     let s := updateFlow h id flow in
     not_found_outcome s
     /\ outer s = Some (Rejected (as_not_found e))
     /\ trace s = [EUpdateFlow id flow; not_found_audit "flow.update" id RuntimeLog])
  /\ (forall e, n_updateFlow (h_nodes h) id flow = Returns (Rejects e) ->
     outer (updateFlow h id flow) = Some (Rejected (set_status (VNum 400) e))
     /\ e_status (set_status (VNum 400) e) = VNum 400
     /\ e_code (set_status (VNum 400) e) = e_code e).
Proof.
  split.
  - intros e Hcode Hup s. subst s. unfold updateFlow, not_found_outcome. exec.
    rewrite Hup. cbn. rewrite Hcode. cbn. split; [|split]; try reflexivity.
    eexists. split; [reflexivity|]. split; reflexivity.
  - intros e Hup. unfold updateFlow. exec. rewrite Hup. repeat split.
Qed.

(** C4, counterexample.  A store that signals the unknown id by rejecting
    its promise with the code-404 error: [updateFlow] rejects with status 400
    and the numeric code, [deleteFlow] never settles.  A store that throws
    the code-404 error, on the module as it stands with nothing bound to
    [log]: [deleteFlow] rejects with the [ReferenceError] of its catch
    block. *)
Lemma not_found_async_counterexample :
  outer (updateFlow host_rejecting_404 (VStr "f1") (VRef 2))
    = Some (Rejected (mkError ClsError "" (VNum 404) (VNum 400) VUndefined))
  /\ ~ not_found_outcome (updateFlow host_rejecting_404 (VStr "f1") (VRef 2))
  /\ outer (deleteFlow host_rejecting_404 (VStr "f1")) = None
  /\ ~ not_found_outcome (deleteFlow host_rejecting_404 (VStr "f1"))
  /\ outer (deleteFlow (with_log None host_throwing_404) (VStr "f1"))
     = Some (Rejected (log_not_defined (with_log None host_throwing_404)))
  /\ ~ not_found_outcome (deleteFlow (with_log None host_throwing_404) (VStr "f1")).
Proof.
  split; [reflexivity|]. split; [|split; [reflexivity|split; [|split; [reflexivity|]]]].
  - intros (e & He & Hst & _). vm_compute in He. injection He as <-.
    discriminate Hst.
  - intros (e & He & _). vm_compute in He. discriminate He.
  - intros (e & He & Hst & _). vm_compute in He. injection He as <-.
    discriminate Hst.
Qed.

(** C8. [deleteFlow] handles what the store's remove-operation throws, and
    nothing else: a synchronous throw rejects the returned promise; when the
    store returns a promise that rejects, no reaction of [deleteFlow] runs,
    the rejection is handled by nobody and the returned promise is never
    settled. *)
Theorem deleteFlow_async_rejection (h : Host) (id : value) (e : error) :
  (n_removeFlow (h_nodes h) id = Returns (Rejects e) ->
     let s := deleteFlow h id in
     outer s = None /\ unhandled s = [e] /\ trace s = [ERemoveFlow id])
  /\ (n_removeFlow (h_nodes h) id = Raises e ->
     exists e', outer (deleteFlow h id) = Some (Rejected e')).
Proof.
  split.
  - intros Hrm s. subst s. unfold deleteFlow. exec. rewrite Hrm. cbn.
    repeat split.
  - intros Hrm. unfold deleteFlow. exec. rewrite Hrm. cbn.
    destruct (strict_eq (e_code e) (VNum 404)); cbn;
      destruct (h_log h) as [lg|]; cbn; eexists; reflexivity.
Qed.

(** *** getNodeCredentials *)

(** The key and the value of the assignment in the body of the loop. *)
Lemma send_field_assign (c m : gmap string value) (entry : string * CredentialField) :
  send_field c m entry = assign m (field_key entry) (field_value c entry).
Proof.
  unfold send_field, field_key, field_value.
  destruct (String.eqb (type (snd entry)) "password"); reflexivity.
Qed.

Lemma lookup_assign (m : gmap string value) (k j : string) (v : value) :
  assign m k v !! j
  = if decide (k = j /\ k ≠ "__proto__") then Some v else m !! j.
Proof.
  unfold assign. destruct (String.eqb_spec k "__proto__") as [Hp|Hp].
  - destruct (decide (k = j /\ k ≠ "__proto__")) as [[_ Hn]|_];
      [contradiction|reflexivity].
  - rewrite lookup_insert. destruct (decide (k = j)) as [Heq|Hne].
    + destruct (decide (k = j /\ k ≠ "__proto__")) as [_|Hn];
        [reflexivity|destruct Hn; split; assumption].
    + destruct (decide (k = j /\ k ≠ "__proto__")) as [[Heq _]|_];
        [contradiction|reflexivity].
Qed.

Lemma safe_credentials_snoc (c : gmap string value) (def : CredentialDefinition)
    (entry : string * CredentialField) :
  safe_credentials (Some (def ++ [entry])%list) c
  = assign (safe_credentials (Some def) c) (field_key entry) (field_value c entry).
Proof.
  unfold safe_credentials. change (default [] (Some ?l)) with l.
  rewrite foldl_snoc. apply send_field_assign.
Qed.

(** Every entry of the output was written by a turn of the loop, under a
    key other than [__proto__]. *)
Lemma safe_credentials_lookup_Some (c : gmap string value)
    (def : CredentialDefinition) (k : string) (v : value) :
  safe_credentials (Some def) c !! k = Some v ->
  k ≠ "__proto__"
  /\ exists entry, entry ∈ def /\ field_key entry = k /\ field_value c entry = v.
Proof.
  induction def as [|entry def IH] using rev_ind; intros Hk.
  - unfold safe_credentials in Hk. cbn in Hk. rewrite lookup_empty in Hk.
    discriminate.
  - rewrite safe_credentials_snoc, lookup_assign in Hk.
    destruct (decide (field_key entry = k /\ field_key entry ≠ "__proto__"))
      as [[Heq Hp]|_].
    + split; [congruence|]. exists entry.
      split; [apply elem_of_app; right; constructor|].
      split; [exact Heq|congruence].
    + destruct (IH Hk) as (Hp & e0 & Hin & Hkey & Hval).
      split; [exact Hp|]. exists e0.
      split; [apply elem_of_app; left; exact Hin|]. split; assumption.
Qed.

(** Every turn of the loop leaves its key in the output, unless the key is
    [__proto__]. *)
Lemma safe_credentials_lookup_key (c : gmap string value)
    (def : CredentialDefinition) (entry : string * CredentialField) :
  entry ∈ def -> field_key entry ≠ "__proto__" ->
  is_Some (safe_credentials (Some def) c !! field_key entry).
Proof.
  induction def as [|e0 def IH] using rev_ind; intros Hin Hp.
  - apply elem_of_nil in Hin. contradiction.
  - rewrite safe_credentials_snoc, lookup_assign.
    destruct (decide (field_key e0 = field_key entry /\ field_key e0 ≠ "__proto__"))
      as [_|Hn]; [eauto|].
    apply IH; [|exact Hp]. apply elem_of_app in Hin as [Hin|Hin]; [exact Hin|].
    apply list_elem_of_singleton in Hin. subst. destruct Hn. split; auto.
Qed.

(** A turn of the loop decides its key when all turns that write this key
    write the same value. *)
Lemma safe_credentials_lookup_entry (c : gmap string value)
    (def : CredentialDefinition) (entry : string * CredentialField) :
  entry ∈ def -> field_key entry ≠ "__proto__" ->
  (forall e', e' ∈ def -> field_key e' = field_key entry ->
              field_value c e' = field_value c entry) ->
  safe_credentials (Some def) c !! field_key entry = Some (field_value c entry).
Proof.
  intros Hin Hp Hsame.
  destruct (safe_credentials_lookup_key c def entry Hin Hp) as [v Hv].
  rewrite Hv. apply safe_credentials_lookup_Some in Hv
    as (_ & e' & Hin' & Hkey & <-).
  f_equal. apply Hsame; assumption.
Qed.

Lemma password_entry (f : string) (d : CredentialField) (c : gmap string value) :
  type d = "password" ->
  field_key (f, d) = String.append "has_" f
  /\ field_value c (f, d) = VBool (has_value c f).
Proof.
  intros Hty. unfold field_key, field_value. cbn [fst snd]. rewrite Hty.
  split; reflexivity.
Qed.

Lemma plain_entry (f : string) (d : CredentialField) (c : gmap string value) :
  type d ≠ "password" ->
  field_key (f, d) = f
  /\ field_value c (f, d) = js_or (get_cred c f) (VStr "").
Proof.
  intros Hty. unfold field_key, field_value. cbn [fst snd].
  destruct (String.eqb_spec (type d) "password") as [Heq|_]; [contradiction|].
  split; reflexivity.
Qed.

Lemma has_key_not_proto (f : string) : String.append "has_" f ≠ "__proto__".
Proof. intros H. vm_compute in H. discriminate H. Qed.

(** The test of the loop for a password: the stored value is set, or nothing
    is stored and the read finds a member of [Object.prototype]. *)
Lemma has_value_spec (c : gmap string value) (f : string) :
  has_value c f = true
  <-> stored_value_set c f \/ (c !! f = None /\ f ∈ Object_prototype_names).
Proof.
  unfold has_value, stored_value_set, get_cred.
  destruct (c !! f) as [v|]; cbn.
  - split.
    + intros H. left. exists v. split; [reflexivity|].
      destruct v; cbn in H; try discriminate H;
        repeat split; try discriminate.
      intros Hs. injection Hs as ->. discriminate H.
    + intros [(v' & Hv & Hu & Hn & He)|[Hnone _]]; [|discriminate Hnone].
      injection Hv as <-.
      destruct v; cbn; try reflexivity; try contradiction.
      rewrite bool_decide_eq_false_2; [reflexivity|exact He].
  - destruct (bool_decide (f ∈ Object_prototype_names)) eqn:Hb; cbn.
    + apply bool_decide_eq_true in Hb. split; [|reflexivity].
      intros _. right. split; [reflexivity|exact Hb].
    + apply bool_decide_eq_false in Hb. split; [discriminate|].
      intros [(v & Hv & _)|[_ Hin]]; [discriminate Hv|contradiction].
Qed.

Lemma foldl_ext_elem {A B} (f g : A -> B -> A) (l : list B) (a : A) :
  (forall x b, b ∈ l -> f x b = g x b) -> foldl f a l = foldl g a l.
Proof.
  revert a. induction l as [|b l IH]; intros a Hfg; [reflexivity|].
  cbn. rewrite Hfg by constructor. apply IH. intros x b' Hb'. apply Hfg.
  constructor. exact Hb'.
Qed.

(** Two credential objects on which the test for a password gives the same
    for the declared passwords, and which hold the same under the other
    declared fields, give the same safe credentials. *)
Lemma safe_credentials_low_equiv (def : CredentialDefinition)
    (c1 c2 : gmap string value) :
  (forall f d, (f, d) ∈ def -> type d = "password" ->
               has_value c1 f = has_value c2 f) ->
  (forall f d, (f, d) ∈ def -> type d ≠ "password" -> c1 !! f = c2 !! f) ->
  safe_credentials (Some def) c1 = safe_credentials (Some def) c2.
Proof.
  intros Hpw Hplain. unfold safe_credentials.
  change (default [] (Some ?l)) with l.
  apply foldl_ext_elem. intros m [f d] Hin. rewrite !send_field_assign.
  destruct (String.eqb_spec (type d) "password") as [Heq|Hneq].
  - destruct (password_entry f d c1 Heq) as [-> ->].
    destruct (password_entry f d c2 Heq) as [_ ->].
    rewrite (Hpw f d Hin Heq). reflexivity.
  - destruct (plain_entry f d c1 Hneq) as [-> ->].
    destruct (plain_entry f d c2 Hneq) as [_ ->].
    unfold get_cred. rewrite (Hplain f d Hin Hneq). reflexivity.
Qed.

(** The loop over fields of the definition: it throws at its first turn when
    the definition declares [hasOwnProperty], and otherwise runs the body for
    each field. *)
Lemma send_loop_run {R} (err : error) (def : CredentialDefinition)
    (c : gmap string value) (todo : list (string * CredentialField))
    (acc : gmap string value) (s : state R) :
  (forall entry, entry ∈ todo -> entry ∈ def) ->
  send_loop err def c todo acc s
  = if bool_decide ("hasOwnProperty" ∈ field_names def)
    then match todo with
         | [] => (Normal acc, s)
         | _ :: _ => (Throw err, s)
         end
    else (Normal (foldl (send_field c) acc todo), s).
Proof.
  revert acc. induction todo as [|entry todo IH]; intros acc Hsub.
  - cbn. destruct (bool_decide ("hasOwnProperty" ∈ field_names def)); reflexivity.
  - cbn [send_loop foldl]. unfold definition_hasOwnProperty.
    unfold mbind, M_bind, bind, mret, M_ret, ret, throw.
    destruct (bool_decide ("hasOwnProperty" ∈ field_names def)) eqn:Hb;
      [reflexivity|].
    assert (Hown : bool_decide (fst entry ∈ field_names def) = true).
    { apply bool_decide_eq_true. unfold field_names. apply list_elem_of_fmap.
      exists entry. split; [reflexivity|]. apply Hsub. constructor. }
    rewrite Hown, IH; [reflexivity|].
    intros e He. apply Hsub. constructor. exact He.
Qed.

(** The run of [getNodeCredentials]. *)
Lemma getNodeCredentials_run (h : Host) (ty id : value) :
  getNodeCredentials h ty id
  = match h_log h with
    | None => mkState [] (Some (Rejected (log_not_defined h))) []
    | Some _ =>
        let audit :=
          EAudit FreeLog [("event", VStr "credentials.get"); ("type", ty); ("id", id)] in
        match n_getCredentials (h_nodes h) id with
        | None => mkState [audit; EGetCredentials id] (Some (Fulfilled ∅)) []
        | Some c =>
            mkState [audit; EGetCredentials id; EGetCredentialDefinition ty]
              (Some (if bool_decide ("hasOwnProperty" ∈ field_names (declared h ty))
                     then Rejected (hasOwnProperty_not_a_function h)
                     else Fulfilled (safe_credentials (Some (declared h ty)) c)))
              []
        end
    end.
Proof.
  unfold getNodeCredentials, declared. exec. destruct (h_log h); cbn; [|reflexivity].
  destruct (n_getCredentials (h_nodes h) id) as [c|]; [|reflexivity].
  cbn. rewrite send_loop_run by auto.
  destruct (bool_decide
              ("hasOwnProperty"
               ∈ field_names (default [] (n_getCredentialDefinition (h_nodes h) ty))))
    eqn:Hb; [|reflexivity].
  destruct (default [] (n_getCredentialDefinition (h_nodes h) ty)) as [|e0 def];
    [|reflexivity].
  apply bool_decide_eq_true in Hb. apply elem_of_nil in Hb. contradiction.
Qed.

(** What [getNodeCredentials] resolves with, when it does. *)
Lemma getNodeCredentials_resolved (h : Host) (ty id : value)
    (out : gmap string value) :
  outer (getNodeCredentials h ty id) = Some (Fulfilled out) ->
  match n_getCredentials (h_nodes h) id with
  | None => out = ∅
  | Some c => out = safe_credentials (Some (declared h ty)) c
  end.
Proof.
  rewrite getNodeCredentials_run. destruct (h_log h); [|discriminate].
  cbn. destruct (n_getCredentials (h_nodes h) id) as [c|]; cbn.
  - destruct (bool_decide ("hasOwnProperty" ∈ field_names (declared h ty)));
      [discriminate|]. congruence.
  - congruence.
Qed.

(** C3. The module never declares the identifier [log] through which
    [getNodeCredentials] audits first.  Where nothing is bound to it, the
    call on the example of the specification (definition
    [{password: {type:"password"}, user: {type:"other"}}], stored
    [{password:"secret", user:"alice"}]) rejects with the [ReferenceError]
    before it reads anything, instead of resolving with
    [{has_password: true, user: "alice"}]; with [log] bound it resolves with
    exactly that object. *)
Theorem credentials_redaction_reference_error :
  getNodeCredentials host_alice_unbound (VStr "t") (VStr "n")
  = mkState [] (Some (Rejected (log_not_defined host_alice_unbound))) []
  /\ e_class (log_not_defined host_alice_unbound) = ClsReferenceError
  /\ outer (getNodeCredentials host_alice (VStr "t") (VStr "n"))
     = Some (Fulfilled {[ "has_password" := VBool true; "user" := VStr "alice" ]}).
Proof.
  split; [reflexivity|]. split; [reflexivity|]. vm_compute. reflexivity.
Qed.

(** C6, counterexample.  Without stored credentials the output is empty, so
    the flag of a declared password is missing.  A declared field that is
    itself named [has_x], coming after the password [x], takes the place of
    the flag.  For a declared password named [constructor] with nothing
    stored the flag is true, because the read finds the member of
    [Object.prototype].  With a declared field named [hasOwnProperty] the
    call rejects, so there is no output. *)
Lemma presence_flags_counterexample :
  (outer (getNodeCredentials host_without_credentials (VStr "t") (VStr "n"))
     = Some (Fulfilled ∅)
   /\ ~ presence_flags_stated host_without_credentials (VStr "t") (VStr "n"))
  /\ (outer (getNodeCredentials host_with_has_field (VStr "t") (VStr "n"))
        = Some (Fulfilled {[ "has_x" := VStr "note" ]})
      /\ ~ presence_flags_stated host_with_has_field (VStr "t") (VStr "n"))
  /\ (outer (getNodeCredentials host_constructor_password (VStr "t") (VStr "n"))
        = Some (Fulfilled {[ "has_constructor" := VBool true ]})
      /\ ~ presence_flags_stated host_constructor_password (VStr "t") (VStr "n"))
  /\ (outer (getNodeCredentials host_hasOwnProperty_password (VStr "t") (VStr "n"))
        = Some (Rejected (hasOwnProperty_not_a_function host_hasOwnProperty_password))
      /\ ~ presence_flags_stated host_hasOwnProperty_password (VStr "t") (VStr "n")).
Proof.
  split; [|split; [|split]]; split.
  - vm_compute. reflexivity.
  - intros H.
    destruct (H "password" (mkField "password")) as (out & b & Hout & Hk & _).
    + constructor.
    + reflexivity.
    + vm_compute in Hout. injection Hout as <-. discriminate Hk.
  - vm_compute. reflexivity.
  - intros H.
    destruct (H "x" (mkField "password")) as (out & b & Hout & Hk & _).
    + constructor.
    + reflexivity.
    + vm_compute in Hout. injection Hout as <-. vm_compute in Hk.
      discriminate Hk.
  - vm_compute. reflexivity.
  - intros H.
    destruct (H "constructor" (mkField "password")) as (out & b & Hout & Hk & Hb).
    + constructor.
    + reflexivity.
    + vm_compute in Hout. injection Hout as <-. vm_compute in Hk.
      injection Hk as <-.
      destruct (proj1 Hb eq_refl) as (c & Hc & v & Hv & _).
      vm_compute in Hc. injection Hc as <-. vm_compute in Hv.
      discriminate Hv.
  - vm_compute. reflexivity.
  - intros H.
    destruct (H "hasOwnProperty" (mkField "password")) as (out & b & Hout & _).
    + constructor.
    + reflexivity.
    + vm_compute in Hout. discriminate Hout.
Qed.

(** C6, as amended.  In every object [getNodeCredentials] resolves with:
    when no credentials are stored for the node, the object is empty; when
    credentials are stored, for every declared password [f] such that the
    definition declares no field of another type under the name [has_f], the
    object has the boolean [has_f], which is true exactly when the stored
    value is set (present and none of [undefined], [null] and [""]), or
    nothing is stored under [f] and [f] names a property of
    [Object.prototype]. *)
Theorem presence_flags (h : Host) (ty id : value) (out : gmap string value) :
  outer (getNodeCredentials h ty id) = Some (Fulfilled out) ->
  (n_getCredentials (h_nodes h) id = None -> out = ∅)
  /\ (forall c f d,
        n_getCredentials (h_nodes h) id = Some c ->
        (f, d) ∈ declared h ty ->
        type d = "password" ->
        (forall d', (String.append "has_" f, d') ∈ declared h ty ->
                    type d' = "password") ->
        exists b,
          out !! String.append "has_" f = Some (VBool b)
          /\ (b = true
              <-> stored_value_set c f
                  \/ (c !! f = None /\ f ∈ Object_prototype_names))).
Proof.
  intros Hout. apply getNodeCredentials_resolved in Hout. split.
  - intros Hc. rewrite Hc in Hout. exact Hout.
  - intros c f d Hc Hin Hty Hfree. rewrite Hc in Hout. subst out.
    exists (has_value c f). split; [|apply has_value_spec].
    destruct (password_entry f d c Hty) as [Hkey Hval].
    rewrite <- Hkey, <- Hval. apply safe_credentials_lookup_entry; [exact Hin| |].
    + rewrite Hkey. apply has_key_not_proto.
    + intros [g d'] Hin' Hsame. rewrite Hkey in Hsame. rewrite Hval.
      destruct (String.eqb_spec (type d') "password") as [Heq|Hneq].
      * destruct (password_entry g d' c Heq) as [Hk' Hv'].
        rewrite Hk' in Hsame. apply append_has_inj in Hsame. subst g. exact Hv'.
      * destruct (plain_entry g d' c Hneq) as [Hk' _].
        rewrite Hk' in Hsame. subst g. destruct Hneq. apply Hfree. exact Hin'.
Qed.

(** C9, counterexample.  Without stored credentials the output is empty; a
    stored value that is falsy (the number 0) is replaced by [""]; the flag
    of a password [x] declared after a text field named [has_x] takes that
    field's place; a declared field named [toString] with nothing stored
    comes out as the member of [Object.prototype], not as [""]; a declared
    field named [__proto__] is not in the output; and with a declared field
    named [hasOwnProperty] the call rejects. *)
Lemma pass_through_counterexample :
  (outer (getNodeCredentials host_without_credentials_text (VStr "t") (VStr "n"))
     = Some (Fulfilled ∅)
   /\ ~ pass_through_stated host_without_credentials_text (VStr "t") (VStr "n"))
  /\ (outer (getNodeCredentials host_with_zero (VStr "t") (VStr "n"))
        = Some (Fulfilled {[ "port" := VStr "" ]})
      /\ ~ pass_through_stated host_with_zero (VStr "t") (VStr "n"))
  /\ (outer (getNodeCredentials host_with_has_field_first (VStr "t") (VStr "n"))
        = Some (Fulfilled {[ "has_x" := VBool true ]})
      /\ ~ pass_through_stated host_with_has_field_first (VStr "t") (VStr "n"))
  /\ (outer (getNodeCredentials host_toString_text (VStr "t") (VStr "n"))
        = Some (Fulfilled {[ "toString" := VBuiltin "toString" ]})
      /\ ~ pass_through_stated host_toString_text (VStr "t") (VStr "n"))
  /\ (outer (getNodeCredentials host_proto_text (VStr "t") (VStr "n"))
        = Some (Fulfilled {[ "user" := VStr "alice" ]})
      /\ ~ pass_through_stated host_proto_text (VStr "t") (VStr "n"))
  /\ (outer (getNodeCredentials host_hasOwnProperty_text (VStr "t") (VStr "n"))
        = Some (Rejected (hasOwnProperty_not_a_function host_hasOwnProperty_text))
      /\ ~ pass_through_stated host_hasOwnProperty_text (VStr "t") (VStr "n")).
Proof.
  split; [|split; [|split; [|split; [|split]]]]; split;
    try (vm_compute; reflexivity); intros H.
  - destruct (H "user" (mkField "text")) as (out & Hout & Hk).
    + constructor.
    + discriminate.
    + vm_compute in Hout. injection Hout as <-. discriminate Hk.
  - destruct (H "port" (mkField "text")) as (out & Hout & Hk).
    + constructor.
    + discriminate.
    + vm_compute in Hout. injection Hout as <-. vm_compute in Hk.
      discriminate Hk.
  - destruct (H "has_x" (mkField "text")) as (out & Hout & Hk).
    + constructor.
    + discriminate.
    + vm_compute in Hout. injection Hout as <-. vm_compute in Hk.
      discriminate Hk.
  - destruct (H "toString" (mkField "text")) as (out & Hout & Hk).
    + constructor.
    + discriminate.
    + vm_compute in Hout. injection Hout as <-. vm_compute in Hk.
      discriminate Hk.
  - destruct (H "__proto__" (mkField "text")) as (out & Hout & Hk).
    + constructor.
    + discriminate.
    + vm_compute in Hout. injection Hout as <-. vm_compute in Hk.
      discriminate Hk.
  - destruct (H "hasOwnProperty" (mkField "text")) as (out & Hout & _).
    + constructor.
    + discriminate.
    + vm_compute in Hout. discriminate Hout.
Qed.

(** C9, as amended.  In every object [getNodeCredentials] resolves with:
    when no credentials are stored for the node, the object is empty; when
    credentials are stored, every declared field [f] that is not a password,
    is not named [__proto__] and is not named [has_g] for a declared password
    [g] is in the object under its name, with the stored value when that
    value is truthy, else with the member of [Object.prototype] of that name
    when nothing is stored under [f] and there is one, else with [""]; the
    keys of the object are those the definition gives ([has_f] for a password
    [f], [f] otherwise) except [__proto__]; and stored fields the definition
    does not declare have no influence on the object. *)
Theorem pass_through (h : Host) (ty id : value) (out : gmap string value) :
  outer (getNodeCredentials h ty id) = Some (Fulfilled out) ->
  (n_getCredentials (h_nodes h) id = None -> out = ∅)
  /\ (forall c, n_getCredentials (h_nodes h) id = Some c ->
      (forall f d, (f, d) ∈ declared h ty -> type d ≠ "password" ->
          f ≠ "__proto__" ->
          (forall g dg, (g, dg) ∈ declared h ty -> type dg = "password" ->
                        String.append "has_" g ≠ f) ->
          out !! f = Some (match c !! f with
                           | Some v => if truthy v then v else VStr ""
                           | None =>
                               if bool_decide (f ∈ Object_prototype_names)
                               then VBuiltin f
                               else VStr ""
                           end))
      /\ (forall k, is_Some (out !! k) <->
                    k ≠ "__proto__"
                    /\ exists entry, entry ∈ declared h ty /\ field_key entry = k)
      /\ (forall c', (forall f d, (f, d) ∈ declared h ty -> c' !! f = c !! f) ->
            outer (getNodeCredentials (with_credentials (Some c') h) ty id)
              = Some (Fulfilled out))).
Proof.
  intros Hres. pose proof (getNodeCredentials_resolved _ _ _ _ Hres) as Hout. split.
  - intros Hc. rewrite Hc in Hout. exact Hout.
  - intros c Hc. rewrite Hc in Hout. subst out. split; [|split].
    + intros f d Hin Hty Hproto Hfree.
      destruct (plain_entry f d c Hty) as [Hkey Hval].
      assert (Hv : js_or (get_cred c f) (VStr "")
                   = match c !! f with
                     | Some v => if truthy v then v else VStr ""
                     | None =>
                         if bool_decide (f ∈ Object_prototype_names)
                         then VBuiltin f
                         else VStr ""
                     end).
      { unfold js_or, get_cred. destruct (c !! f); [reflexivity|].
        destruct (bool_decide (f ∈ Object_prototype_names)); reflexivity. }
      rewrite <- Hv, <- Hval. rewrite <- Hkey at 1.
      apply safe_credentials_lookup_entry; [exact Hin|congruence|].
      intros [g d'] Hin' Hsame. rewrite Hkey in Hsame. rewrite Hval.
      destruct (String.eqb_spec (type d') "password") as [Heq|Hneq].
      * destruct (password_entry g d' c Heq) as [Hk' _].
        rewrite Hk' in Hsame. destruct (Hfree g d' Hin' Heq Hsame).
      * destruct (plain_entry g d' c Hneq) as [Hk' Hv'].
        rewrite Hk' in Hsame. subst g. exact Hv'.
    + intros k. split.
      * intros [v Hk]. apply safe_credentials_lookup_Some in Hk
          as (Hp & entry & Hin & Hkey & _).
        split; [exact Hp|]. exists entry. split; assumption.
      * intros (Hp & entry & Hin & <-).
        apply safe_credentials_lookup_key; assumption.
    + intros c' Hagree. rewrite getNodeCredentials_run in Hres |- *.
      change (h_log (with_credentials (Some c') h)) with (h_log h).
      change (n_getCredentials (h_nodes (with_credentials (Some c') h)) id)
        with (Some c').
      change (declared (with_credentials (Some c') h) ty) with (declared h ty).
      destruct (h_log h); [|discriminate Hres]. rewrite Hc in Hres.
      cbv zeta in Hres |- *. cbn [outer] in Hres |- *.
      destruct (bool_decide ("hasOwnProperty" ∈ field_names (declared h ty)));
        [discriminate Hres|].
      f_equal. f_equal. apply safe_credentials_low_equiv.
      * intros f d Hin _. unfold has_value, get_cred.
        rewrite (Hagree f d Hin). reflexivity.
      * intros f d Hin _. exact (Hagree f d Hin).
Qed.

(** *** The theorems at the sample hosts *)

(** C1 at a store at revision "r1" and a payload declaring "r0". *)
Lemma setFlows_version_conflict_witness :
  VStr "r0" ≠ get_rev (n_getFlows (h_nodes sample_host))
  /\ outer (setFlows sample_host opts_stale)
     = Some (Rejected (version_mismatch sample_host))
  /\ trace (setFlows sample_host opts_stale)
     = [flows_set_audit opts_stale; EGetFlows]
  /\ no_write (setFlows sample_host opts_stale).
Proof.
  assert (Hne : VStr "r0" ≠ get_rev (n_getFlows (h_nodes sample_host)))
    by decided.
  split; [exact Hne|].
  destruct (setFlows_version_conflict sample_host opts_stale payload_stale
              (VStr "r0") ltac:(decided) eq_refl eq_refl Hne)
    as ((e & He & _ & _ & ->) & Htr & Hnw).
  split; [exact He|]. split; [exact Htr|exact Hnw].
Defined.

(** C2 at a reload that comes with a stale payload. *)
Lemma setFlows_reload_bypass_witness :
  sf_deploymentType opts_reload = Some "reload"
  /\ (EGetFlows ∉ trace (setFlows host_succeeding opts_reload))
  /\ outer (setFlows host_succeeding opts_reload)
     = Some (Fulfilled (mkRevObj (VStr "r2"))).
Proof.
  split; [reflexivity|].
  destruct (setFlows_reload_bypass host_succeeding opts_reload eq_refl)
    as (Hget & _ & _ & Hres).
  split; [exact Hget|]. apply Hres. reflexivity.
Defined.

(** C10 at options without payload. *)
Lemma setFlows_missing_payload_witness :
  sf_flows opts_nopayload = None
  /\ trace (setFlows host_succeeding opts_nopayload)
     = [flows_set_audit opts_nopayload]
  /\ no_write (setFlows host_succeeding opts_nopayload).
Proof.
  split; [reflexivity|].
  destruct (setFlows_missing_payload host_succeeding opts_nopayload
              ltac:(decided) eq_refl)
    as (_ & Htr & Hnw).
  split; [exact Htr|exact Hnw].
Defined.

(** C8 at a store whose remove-operation rejects, and at one that throws. *)
Lemma deleteFlow_async_rejection_witness :
  (outer (deleteFlow host_rejecting_404 (VStr "f1")) = None
   /\ unhandled (deleteFlow host_rejecting_404 (VStr "f1")) = [error_404]
   /\ trace (deleteFlow host_rejecting_404 (VStr "f1")) = [ERemoveFlow (VStr "f1")])
  /\ exists e', outer (deleteFlow host_throwing_404 (VStr "f1")) = Some (Rejected e').
Proof.
  split.
  - apply (deleteFlow_async_rejection host_rejecting_404 (VStr "f1") error_404).
    reflexivity.
  - apply (deleteFlow_async_rejection host_throwing_404 (VStr "f1") error_404).
    reflexivity.
Defined.

(** C5 at a deployment of type nodes, and at one that names no type. *)
Lemma setFlows_unconditional_write_witness :
  sf_deploymentType opts_nodes = Some "nodes"
  /\ sf_deploymentType opts_norev = None
  /\ trace (setFlows host_succeeding opts_nodes)
     = [EAudit RuntimeLog [("event", VStr "flows.set"); ("type", VStr "nodes")];
        ESetFlows (VRef 7) "nodes"]
  /\ outer (setFlows host_succeeding opts_nodes)
     = Some (Fulfilled (mkRevObj (VStr "r3")))
  /\ exists rest,
       trace (setFlows host_succeeding opts_norev)
       = EAudit RuntimeLog [("event", VStr "flows.set"); ("type", VStr "full")]
         :: ESetFlows (VRef 7) "full" :: rest.
Proof.
  split; [reflexivity|]. split; [reflexivity|].
  destruct (setFlows_unconditional_write host_succeeding opts_nodes payload_norev "nodes")
    as ((rest & Htr & _) & _ & _ & Hres).
  { right. split; [reflexivity|]. split; discriminate. }
  { reflexivity. }
  { reflexivity. }
  destruct (setFlows_unconditional_write host_succeeding opts_norev payload_norev "full")
    as ((rest' & Htr' & _) & _).
  { left. split; [left; reflexivity|reflexivity]. }
  { reflexivity. }
  { reflexivity. }
  split; [reflexivity|]. split; [apply Hres; reflexivity|].
  exists rest'. exact Htr'.
Defined.

(** C4 as amended, at a store that throws the code-404 error, and at one
    that rejects with an error without code. *)
Lemma not_found_normalisation_witness :
  e_code error_404 = VNum 404
  /\ not_found_outcome (updateFlow host_throwing_404 (VStr "f1") (VRef 2))
  /\ outer (updateFlow host_rejecting_404 (VStr "f1") (VRef 2))
     = Some (Rejected (set_status (VNum 400) error_404)).
Proof.
  split; [reflexivity|].
  destruct (not_found_normalisation host_throwing_404 (VStr "f1") (VRef 2))
    as (Hup & _).
  destruct (not_found_normalisation host_rejecting_404 (VStr "f1") (VRef 2))
    as (_ & Hasync).
  split; [apply (Hup error_404 eq_refl eq_refl)|].
  apply (Hasync error_404 eq_refl).
Defined.

(** C6 as amended, at an empty stored password: the flag is false. *)
Lemma presence_flags_witness :
  outer (getNodeCredentials host_empty_password (VStr "t") (VStr "n"))
    = Some (Fulfilled {[ "has_password" := VBool false ]})
  /\ exists b,
       ({[ "has_password" := VBool false ]} : gmap string value) !! "has_password"
         = Some (VBool b)
       /\ (b = true
           <-> stored_value_set {[ "password" := VStr "" ]} "password"
               \/ (({[ "password" := VStr "" ]} : gmap string value) !! "password" = None
                   /\ "password" ∈ Object_prototype_names)).
Proof.
  assert (Hout : outer (getNodeCredentials host_empty_password (VStr "t") (VStr "n"))
                 = Some (Fulfilled {[ "has_password" := VBool false ]}))
    by (vm_compute; reflexivity).
  split; [exact Hout|].
  destruct (presence_flags host_empty_password (VStr "t") (VStr "n")
              {[ "has_password" := VBool false ]} Hout) as (_ & Hflags).
  apply (Hflags {[ "password" := VStr "" ]} "password" (mkField "password")).
  - reflexivity.
  - constructor.
  - reflexivity.
  - intros d' Hin. apply elem_of_cons in Hin as [Heq|Hin].
    + discriminate Heq.
    + apply elem_of_nil in Hin. contradiction.
Defined.

(** C9 as amended, at the example of the specification. *)
Lemma pass_through_witness :
  outer (getNodeCredentials host_alice (VStr "t") (VStr "n"))
    = Some (Fulfilled {[ "has_password" := VBool true; "user" := VStr "alice" ]})
  /\ ({[ "has_password" := VBool true; "user" := VStr "alice" ]} : gmap string value)
       !! "user" = Some (VStr "alice")
  /\ outer (getNodeCredentials
              (with_credentials (Some (<["token" := VStr "t0"]> credentials_alice))
                 host_alice)
              (VStr "t") (VStr "n"))
     = Some (Fulfilled {[ "has_password" := VBool true; "user" := VStr "alice" ]}).
Proof.
  assert (Hout : outer (getNodeCredentials host_alice (VStr "t") (VStr "n"))
                 = Some (Fulfilled {[ "has_password" := VBool true;
                                      "user" := VStr "alice" ]}))
    by (vm_compute; reflexivity).
  split; [exact Hout|].
  destruct (pass_through host_alice (VStr "t") (VStr "n") _ Hout) as (_ & Hstored).
  destruct (Hstored credentials_alice eq_refl) as (Hplain & _ & Hdrop).
  split.
  - apply (Hplain "user" (mkField "other")).
    + decided.
    + discriminate.
    + discriminate.
    + intros g dg Hin Hty Hname.
      apply elem_of_cons in Hin as [Heq|Hin];
        [injection Heq as -> ->; discriminate Hname|].
      apply elem_of_cons in Hin as [Heq|Hin];
        [injection Heq as -> ->; discriminate Hty|].
      apply elem_of_nil in Hin. contradiction.
  - apply Hdrop. intros f d Hin.
    apply elem_of_cons in Hin as [Heq|Hin]; [injection Heq as -> ->; reflexivity|].
    apply elem_of_cons in Hin as [Heq|Hin]; [injection Heq as -> ->; reflexivity|].
    apply elem_of_nil in Hin. contradiction.
Defined.

(** ** Further properties *)

(** *** setFlows *)

Lemma strict_eq_refl (a : value) : a ≠ VNaN -> strict_eq a a = true.
Proof.
  intros Hn. destruct a; try (destruct Hn; reflexivity);
    cbn; apply bool_decide_eq_true; reflexivity.
Qed.

(** X1. Reading then writing: when the payload declares the revision that
    [getFlows] resolves with on the same store (a revision other than [NaN]),
    [setFlows] with a deployment type other than reload reads the store once,
    passes the check and calls the store's set-operation with the payload's
    flows; the revision the store fulfils with is the [rev] of the result. *)
Theorem setFlows_after_getFlows (h : Host) (opts : SetFlowsOpts)
    (payload current : Flows) :
  outer (getFlows h) = Some (Fulfilled current) ->
  sf_deploymentType opts ≠ Some "reload" ->
  sf_flows opts = Some payload ->
  rev payload = Some (get_rev current) ->
  get_rev current ≠ VNaN ->
  let s := setFlows h opts in
  (exists rest,
      trace s = flows_set_audit opts :: EGetFlows
                :: ESetFlows (flows payload) (deployment_type opts) :: rest
      /\ Forall (fun ev => is_warn ev = true) rest)
  /\ (forall newRev,
        n_setFlows (h_nodes h) (flows payload) (deployment_type opts)
          = Returns (Fulfils newRev) ->
        outer s = Some (Fulfilled (mkRevObj newRev))).
Proof.
  intros Hget Hty Hfl Hrev Hnan s. subst s.
  assert (Hcur : current = n_getFlows (h_nodes h)).
  { unfold getFlows in Hget. revert Hget. exec. congruence. }
  assert (Hpay : get_rev payload = get_rev current)
    by (unfold get_rev at 1; rewrite Hrev; reflexivity).
  unfold setFlows, flows_set_audit.
  destruct (decide (deployment_type opts = "reload")) as [Hr|Hr].
  { apply deployment_type_reload in Hr. contradiction. }
  rewrite Hfl, Hrev. exec. rewrite Hpay, <- Hcur, strict_eq_refl by exact Hnan.
  cbn.
  destruct (n_setFlows (h_nodes h) (flows payload) (deployment_type opts))
    as [[r|e|]|e]; cbn;
    destruct (h_log h) as [lg|]; cbn;
    (split; [eexists; split; [reflexivity|repeat constructor]|]);
    intros r' Hr'; try discriminate Hr'; injection Hr' as ->; reflexivity.
Qed.

(** The paths of [setFlows], by what the options and the store say: [Hset]
    names what the store's operation gives on the paths that call it. *)
Ltac setFlows_paths h opts Hset :=
  let Hr := fresh "Hr" in
  let payload := fresh "payload" in
  unfold setFlows, setFlows_reaction, flows_set_audit;
  destruct (decide (deployment_type opts = "reload")) as [Hr|Hr];
  [ exec;
    destruct (n_loadFlows (h_nodes h)) as [[?|?|]|?] eqn:Hset; cbn
  | destruct (sf_flows opts) as [payload|];
    [ destruct (rev payload) as [?|]; exec;
      [ destruct (strict_eq (get_rev (n_getFlows (h_nodes h))) (get_rev payload));
        cbn;
        [ destruct (n_setFlows (h_nodes h) (flows payload) (deployment_type opts))
            as [[?|?|]|?] eqn:Hset; cbn
        | ]
      | destruct (n_setFlows (h_nodes h) (flows payload) (deployment_type opts))
          as [[?|?|]|?] eqn:Hset; cbn ]
    | exec ] ].

(** X3. When the store's reload or write throws instead of returning a
    promise, [setFlows] rejects with the exception as it is; no warning is
    logged on this path, whether [log] is bound or not. *)
Theorem setFlows_store_throws (h : Host) (opts : SetFlowsOpts) (e : error) :
  let s := setFlows h opts in
  (ELoadFlows ∈ trace s ->
     n_loadFlows (h_nodes h) = Raises e ->
     outer s = Some (Rejected e)
     /\ Forall (fun ev => is_warn ev = false) (trace s)
     /\ unhandled s = [])
  /\ (forall fl ty, ESetFlows fl ty ∈ trace s ->
     n_setFlows (h_nodes h) fl ty = Raises e ->
     outer s = Some (Rejected e)
     /\ Forall (fun ev => is_warn ev = false) (trace s)
     /\ unhandled s = []).
Proof.
  intros s. subst s. setFlows_paths h opts Hset.
  all: destruct (h_log h) as [lg|]; cbn.
  all: split; [intros Hin He|intros fl ty Hin He].
  all: in_list Hin; try (injection Hin as -> ->).
  all: try rewrite Hset in He; try discriminate He; injection He as ->.
  all: split; [reflexivity|]; split; [repeat constructor|reflexivity].
Qed.

(** X4. On a host that binds nothing to [log], a rejection of the store's
    promise never reaches the caller of [setFlows]: the reaction stops at its
    first [log.warn], the returned promise stays pending, nothing is logged,
    and the [ReferenceError] is handled by nobody. *)
Theorem setFlows_rejection_lost (h : Host) (opts : SetFlowsOpts) (e : error) :
  h_log h = None ->
  let s := setFlows h opts in
  (ELoadFlows ∈ trace s ->
     n_loadFlows (h_nodes h) = Returns (Rejects e) ->
     outer s = None
     /\ unhandled s = [log_not_defined h]
     /\ Forall (fun ev => is_warn ev = false) (trace s))
  /\ (forall fl ty, ESetFlows fl ty ∈ trace s ->
     n_setFlows (h_nodes h) fl ty = Returns (Rejects e) ->
     outer s = None
     /\ unhandled s = [log_not_defined h]
     /\ Forall (fun ev => is_warn ev = false) (trace s)).
Proof.
  intros Hlog s. subst s. setFlows_paths h opts Hset.
  all: rewrite ?Hlog; cbn.
  all: split; [intros Hin He|intros fl ty Hin He].
  all: in_list Hin; try (injection Hin as -> ->).
  all: try rewrite Hset in He; try discriminate He.
  all: split; [reflexivity|]; split; [reflexivity|repeat constructor].
Qed.

(** X5. The binding of [log] matters to [setFlows] only when the store's
    promise rejects: if neither the reload nor the write of the store returns
    a promise that rejects, the run is the same under every binding. *)
Theorem setFlows_log_irrelevant (h : Host) (opts : SetFlowsOpts) (ol : option Log) :
  (forall e, n_loadFlows (h_nodes h) ≠ Returns (Rejects e)) ->
  (forall fl ty e, n_setFlows (h_nodes h) fl ty ≠ Returns (Rejects e)) ->
  setFlows (with_log ol h) opts = setFlows h opts.
Proof.
  intros Hload Hsave. unfold with_log.
  unfold setFlows, setFlows_reaction.
  destruct (decide (deployment_type opts = "reload")) as [Hr|Hr].
  - exec. destruct (n_loadFlows (h_nodes h)) as [[?|e|]|?] eqn:Hset; cbn;
      try reflexivity. destruct (Hload e). reflexivity.
  - destruct (sf_flows opts) as [payload|]; [|reflexivity].
    destruct (rev payload) as [?|]; exec.
    + destruct (strict_eq (get_rev (n_getFlows (h_nodes h))) (get_rev payload));
        cbn; [|reflexivity].
      destruct (n_setFlows (h_nodes h) (flows payload) (deployment_type opts))
        as [[?|e|]|?] eqn:Hset; cbn; try reflexivity.
      destruct (Hsave _ _ e Hset).
    + destruct (n_setFlows (h_nodes h) (flows payload) (deployment_type opts))
        as [[?|e|]|?] eqn:Hset; cbn; try reflexivity.
      destruct (Hsave _ _ e Hset).
Qed.

(** *** addFlow *)

(** X6. What [addFlow] makes of the store's promise: a fulfilment with the
    new id is audited and resolves with that id; a rejection is audited with
    the store's code (or "unexpected_error" when the code is falsy) and the
    error's text, and rejects with the same error under status 400, its code
    left as the store set it, the number 404 included. *)
Theorem addFlow_promise_outcome (h : Host) (flow : value) :
  (forall id, n_addFlow (h_nodes h) flow = Returns (Fulfils id) ->
     addFlow h flow
     = mkState [EAddFlow flow;
                EAudit RuntimeLog [("event", VStr "flow.add"); ("id", id)]]
         (Some (Fulfilled id)) [])
  /\ (forall e, n_addFlow (h_nodes h) flow = Returns (Rejects e) ->
     addFlow h flow
     = mkState [EAddFlow flow;
                EAudit RuntimeLog [("event", VStr "flow.add");
                                   ("error", error_code e);
                                   ("message", VStr (err_toString e))]]
         (Some (Rejected (set_status (VNum 400) e))) []
     /\ e_code (set_status (VNum 400) e) = e_code e
     /\ (truthy (e_code e) = false -> error_code e = VStr "unexpected_error")).
Proof.
  split.
  - intros id Hadd. unfold addFlow. exec. rewrite Hadd. reflexivity.
  - intros e Hadd. unfold addFlow. exec. rewrite Hadd. cbn.
    split; [reflexivity|]. split; [reflexivity|].
    intros Hf. unfold error_code, js_or. rewrite Hf. reflexivity.
Qed.

(** X7. When the store's add-operation throws instead of returning a
    promise, [addFlow] rejects with the exception untouched: no status is
    set and no audit record is written. *)
Theorem addFlow_store_throws (h : Host) (flow : value) (e : error) :
  n_addFlow (h_nodes h) flow = Raises e ->
  addFlow h flow = mkState [EAddFlow flow] (Some (Rejected e)) [].
Proof.
  intros Hadd. unfold addFlow. exec. rewrite Hadd. reflexivity.
Qed.

(** *** getFlow *)

(** X8. [getFlow] looks the flow up once and always settles: with what the
    store returns when that is truthy; otherwise ([undefined], [null] or any
    other falsy value) with a fresh error of status 404 that has no code and
    no message.  Both outcomes are audited, the miss with error
    "not_found". *)
Theorem getFlow_outcome (h : Host) (id : value) :
  let flow := n_getFlow (h_nodes h) id in
  let s := getFlow h id in
  (truthy flow = true ->
     s = mkState [EGetFlow id;
                  EAudit RuntimeLog [("event", VStr "flow.get"); ("id", id)]]
           (Some (Fulfilled flow)) [])
  /\ (truthy flow = false ->
     exists e,
       s = mkState [EGetFlow id;
                    EAudit RuntimeLog [("event", VStr "flow.get"); ("id", id);
                                       ("error", VStr "not_found")]]
             (Some (Rejected e)) []
       /\ e_status e = VNum 404 /\ e_code e = VUndefined /\ e_message e = "").
Proof.
  intros flow s. subst flow s. unfold getFlow. exec.
  split; intros Ht; rewrite Ht; cbn; [reflexivity|].
  eexists. split; [reflexivity|]. repeat split.
Qed.

(** *** updateFlow *)

(** X9. Every error [updateFlow] rejects with carries a status this layer
    set: 404 together with the code "not_found", or 400. *)
Theorem updateFlow_rejection_status (h : Host) (id flow : value) (e : error) :
  outer (updateFlow h id flow) = Some (Rejected e) ->
  (e_status e = VNum 404 /\ e_code e = VStr "not_found")
  \/ e_status e = VNum 400.
Proof.
  unfold updateFlow. exec.
  destruct (n_updateFlow (h_nodes h) id flow) as [[[]|e0|]|e0]; cbn;
    try discriminate.
  - intros He. injection He as <-. right. reflexivity.
  - destruct (strict_eq (e_code e0) (VNum 404)); cbn;
      intros He; injection He as <-; [left; split; reflexivity|right; reflexivity].
Qed.

(** X10. [updateFlow] settles unless the store's promise stays pending, and
    writes exactly one audit record when it settles (none while pending);
    no rejection is left unhandled. *)
Theorem updateFlow_audit_once (h : Host) (id flow : value) :
  let s := updateFlow h id flow in
  (outer s = None <-> n_updateFlow (h_nodes h) id flow = Returns Pends)
  /\ length (List.filter is_audit (trace s))
     = match outer s with Some _ => 1%nat | None => 0%nat end
  /\ unhandled s = [].
Proof.
  intros s. subst s. unfold updateFlow. exec.
  destruct (n_updateFlow (h_nodes h) id flow) as [[[]|e0|]|e0]; cbn.
  4: destruct (strict_eq (e_code e0) (VNum 404)); cbn.
  all: split; [split; intros H; (discriminate H || reflexivity)|].
  all: split; reflexivity.
Qed.

(** X11. [updateFlow] resolves with the id when the store fulfils.  Of what
    the store throws, only the code that is the number 404 means "not found":
    any other exception, the string "404" as code included, is rejected
    under status 400 with its code kept, and its audit record carries the
    code (or "unexpected_error") and no id. *)
Theorem updateFlow_outcome (h : Host) (id flow : value) :
  (n_updateFlow (h_nodes h) id flow = Returns (Fulfils tt) ->
     updateFlow h id flow
     = mkState [EUpdateFlow id flow;
                EAudit RuntimeLog [("event", VStr "flow.update"); ("id", id)]]
         (Some (Fulfilled id)) [])
  /\ (forall e, n_updateFlow (h_nodes h) id flow = Raises e ->
     e_code e ≠ VNum 404 ->
     updateFlow h id flow
     = mkState [EUpdateFlow id flow;
                EAudit RuntimeLog [("event", VStr "flow.update");
                                   ("error", error_code e);
                                   ("message", VStr (err_toString e))]]
         (Some (Rejected (set_status (VNum 400) e))) []).
Proof.
  split.
  - intros Hup. unfold updateFlow. exec. rewrite Hup. reflexivity.
  - intros e Hup Hcode. unfold updateFlow. exec. rewrite Hup. cbn.
    destruct (strict_eq (e_code e) (VNum 404)) eqn:Hs; [|reflexivity].
    apply strict_eq_true in Hs. contradiction.
Qed.

(** *** deleteFlow *)

(** X12. On a host where [log] is bound, [deleteFlow] resolves with
    [undefined] after its audit record when the store fulfils, and every
    error it rejects with carries status 404 with code "not_found", or
    status 400. *)
Theorem deleteFlow_bound_log (h : Host) (lg : Log) (id : value) :
  h_log h = Some lg ->
  (n_removeFlow (h_nodes h) id = Returns (Fulfils tt) ->
     deleteFlow h id
     = mkState [ERemoveFlow id;
                EAudit FreeLog [("event", VStr "flow.remove"); ("id", id)]]
         (Some (Fulfilled VUndefined)) [])
  /\ (forall e, outer (deleteFlow h id) = Some (Rejected e) ->
     (e_status e = VNum 404 /\ e_code e = VStr "not_found")
     \/ e_status e = VNum 400)
  /\ (forall e, n_removeFlow (h_nodes h) id = Raises e ->
     e_code e ≠ VNum 404 ->
     deleteFlow h id
     = mkState [ERemoveFlow id;
                EAudit FreeLog [("event", VStr "flow.remove"); ("id", id);
                                ("error", error_code e);
                                ("message", VStr (err_toString e))]]
         (Some (Rejected (set_status (VNum 400) e))) []).
Proof.
  intros Hlog. split; [|split].
  - intros Hrm. unfold deleteFlow. exec. rewrite Hrm. cbn. rewrite Hlog.
    reflexivity.
  - intros e. unfold deleteFlow. exec.
    destruct (n_removeFlow (h_nodes h) id) as [[[]|e0|]|e0]; cbn;
      rewrite ?Hlog; cbn; try discriminate.
    destruct (strict_eq (e_code e0) (VNum 404)); cbn; rewrite ?Hlog; cbn;
      intros He; injection He as <-; [left; split; reflexivity|right; reflexivity].
  - intros e Hrm Hcode. unfold deleteFlow. exec. rewrite Hrm. cbn.
    destruct (strict_eq (e_code e) (VNum 404)) eqn:Hs.
    + apply strict_eq_true in Hs. contradiction.
    + cbn. rewrite Hlog. reflexivity.
Qed.

(** X13. On a host that binds nothing to [log], [deleteFlow] never
    fulfils and never audits: when the store fulfils, the reaction stops at
    [log.audit] and the returned promise stays pending; when the store
    throws, the catch block stops at [log.audit] too and the caller gets the
    [ReferenceError] in place of the store's error. *)
Theorem deleteFlow_unbound_log (h : Host) (id : value) :
  h_log h = None ->
  let s := deleteFlow h id in
  (forall v, outer s ≠ Some (Fulfilled v))
  /\ trace s = [ERemoveFlow id]
  /\ (n_removeFlow (h_nodes h) id = Returns (Fulfils tt) ->
      outer s = None /\ unhandled s = [log_not_defined h])
  /\ (forall e, n_removeFlow (h_nodes h) id = Raises e ->
      outer s = Some (Rejected (log_not_defined h))).
Proof.
  intros Hlog s. subst s. unfold deleteFlow. exec.
  destruct (n_removeFlow (h_nodes h) id) as [[[]|e0|]|e0]; cbn.
  4: destruct (strict_eq (e_code e0) (VNum 404)); cbn.
  all: rewrite ?Hlog; cbn.
  all: split; [intros v Hv; discriminate Hv|].
  all: split; [reflexivity|].
  all: split; [intros H; try discriminate H; split; reflexivity|].
  all: intros e H; try discriminate H; reflexivity.
Qed.

(** *** The module variable *)

(** X21. Before [init], every function of the API rejects without reaching
    the store or [runtime.log]: with the [TypeError] of reading a property of
    [undefined], which carries no status; except that [deleteFlow], whose
    catch block takes the [TypeError] for an error of the store, audits it
    through [log] and rejects it under status 400, and that on an engine
    without [log] the two functions that audit through [log] reject with the
    [ReferenceError] instead. *)
Theorem api_before_init (g : Engine) :
  rejected_untouched ClsTypeError VUndefined (api_getFlows g None)
  /\ (forall opts, rejected_untouched ClsTypeError VUndefined (api_setFlows g None opts))
  /\ (forall flow, rejected_untouched ClsTypeError VUndefined (api_addFlow g None flow))
  /\ (forall id, rejected_untouched ClsTypeError VUndefined (api_getFlow g None id))
  /\ (forall id flow,
        rejected_untouched ClsTypeError VUndefined (api_updateFlow g None id flow))
  /\ (forall id,
        match g_log g with
        | Some _ => rejected_untouched ClsTypeError (VNum 400) (api_deleteFlow g None id)
        | None => rejected_untouched ClsReferenceError VUndefined (api_deleteFlow g None id)
        end)
  /\ (forall ty id,
        match g_log g with
        | Some _ =>
            rejected_untouched ClsTypeError VUndefined (api_getNodeCredentials g None ty id)
        | None =>
            rejected_untouched ClsReferenceError VUndefined
              (api_getNodeCredentials g None ty id)
        end).
Proof.
  unfold rejected_untouched.
  repeat split; intros;
    try (destruct (g_log g) as [lg|] eqn:Hlog);
    unfold api_getFlows, api_setFlows, api_addFlow, api_getFlow, api_updateFlow,
      api_deleteFlow, api_getNodeCredentials, api_runtime_log_audit, api_log_audit,
      api_free_log, runtime_log, runtime_nodes;
    exec; rewrite ?Hlog; cbn;
    repeat split; try (eexists; repeat split); repeat constructor.
Qed.

(** *** The further properties at the sample hosts *)

(** X1 at the sample store, whose revision is "r1". *)
Lemma setFlows_after_getFlows_witness :
  outer (getFlows host_succeeding) = Some (Fulfilled (mkFlows (Some (VStr "r1")) (VRef 1)))
  /\ rev payload_current = Some (VStr "r1")
  /\ outer (setFlows host_succeeding opts_current)
     = Some (Fulfilled (mkRevObj (VStr "r3"))).
Proof.
  split; [reflexivity|]. split; [reflexivity|].
  destruct (setFlows_after_getFlows host_succeeding opts_current payload_current
              (mkFlows (Some (VStr "r1")) (VRef 1))
              eq_refl ltac:(decided) eq_refl eq_refl ltac:(decided))
    as (_ & Hres).
  apply Hres. reflexivity.
Defined.

(** X3 at a store whose reload and write throw. *)
Lemma setFlows_store_throws_witness :
  outer (setFlows host_throwing opts_reload) = Some (Rejected error_boom)
  /\ outer (setFlows host_throwing opts_norev) = Some (Rejected error_boom)
  /\ Forall (fun ev => is_warn ev = false) (trace (setFlows host_throwing opts_norev)).
Proof.
  destruct (setFlows_store_throws host_throwing opts_reload error_boom)
    as (Hreload & _).
  destruct (setFlows_store_throws host_throwing opts_norev error_boom)
    as (_ & Hsave).
  destruct (Hreload ltac:(decided) eq_refl) as (Ho & _ & _).
  destruct (Hsave (VRef 7) "full" ltac:(decided) eq_refl) as (Ho' & Hw & _).
  split; [exact Ho|]. split; [exact Ho'|exact Hw].
Defined.

(** X4 at the failing store on a host without [log]. *)
Lemma setFlows_rejection_lost_witness :
  h_log host_failing_unbound = None
  /\ outer (setFlows host_failing_unbound opts_reload) = None
  /\ outer (setFlows host_failing_unbound opts_norev) = None
  /\ unhandled (setFlows host_failing_unbound opts_norev)
     = [log_not_defined host_failing_unbound].
Proof.
  split; [reflexivity|].
  destruct (setFlows_rejection_lost host_failing_unbound opts_reload error_boom eq_refl)
    as (Hreload & _).
  destruct (setFlows_rejection_lost host_failing_unbound opts_norev error_boom eq_refl)
    as (_ & Hsave).
  destruct (Hreload ltac:(decided) eq_refl) as (Ho & _ & _).
  destruct (Hsave (VRef 7) "full" ltac:(decided) eq_refl) as (Ho' & Hu & _).
  split; [exact Ho|]. split; [exact Ho'|exact Hu].
Defined.

(** X5 at a store whose reload and write fulfil. *)
Lemma setFlows_log_irrelevant_witness :
  setFlows (with_log None host_succeeding) opts_current
  = setFlows host_succeeding opts_current.
Proof.
  apply (setFlows_log_irrelevant host_succeeding opts_current None).
  - intros e. discriminate.
  - intros fl ty e. discriminate.
Defined.

(** X6 at a store that adds the flow, and at one that rejects it. *)
Lemma addFlow_promise_outcome_witness :
  outer (addFlow host_flow_ok (VRef 4)) = Some (Fulfilled (VStr "f9"))
  /\ addFlow host_flow_rejecting (VRef 4)
     = mkState [EAddFlow (VRef 4);
                EAudit RuntimeLog
                  [("event", VStr "flow.add");
                   ("error", VStr "unexpected_error");
                   ("message", VStr "TypeError: flow.nodes is not iterable")]]
         (Some (Rejected (set_status (VNum 400) error_plain))) [].
Proof.
  destruct (addFlow_promise_outcome host_flow_ok (VRef 4)) as (Hok & _).
  destruct (addFlow_promise_outcome host_flow_rejecting (VRef 4)) as (_ & Hrej).
  split.
  - rewrite (Hok (VStr "f9") eq_refl). reflexivity.
  - destruct (Hrej error_plain eq_refl) as (Hs & _ & _). exact Hs.
Defined.

(** X7 at a store whose add-operation throws. *)
Lemma addFlow_store_throws_witness :
  addFlow host_flow_throwing (VRef 4)
  = mkState [EAddFlow (VRef 4)] (Some (Rejected error_plain)) [].
Proof.
  apply (addFlow_store_throws host_flow_throwing (VRef 4) error_plain).
  reflexivity.
Defined.

(** X8 at a store that knows the flow, and at one that does not. *)
Lemma getFlow_outcome_witness :
  outer (getFlow host_flow_ok (VStr "f9")) = Some (Fulfilled (VRef 9))
  /\ exists e, outer (getFlow sample_host (VStr "f9")) = Some (Rejected e)
               /\ e_status e = VNum 404 /\ e_code e = VUndefined.
Proof.
  destruct (getFlow_outcome host_flow_ok (VStr "f9")) as (Hok & _).
  destruct (getFlow_outcome sample_host (VStr "f9")) as (_ & Hmiss).
  split.
  - rewrite (Hok eq_refl). reflexivity.
  - destruct (Hmiss eq_refl) as (e & Hs & Hst & Hcode & _).
    exists e. rewrite Hs. repeat split; assumption.
Defined.

(** X9 at a store that rejects the update. *)
Lemma updateFlow_rejection_status_witness :
  outer (updateFlow host_rejecting_404 (VStr "f1") (VRef 2))
    = Some (Rejected (set_status (VNum 400) error_404))
  /\ ((e_status (set_status (VNum 400) error_404) = VNum 404
       /\ e_code (set_status (VNum 400) error_404) = VStr "not_found")
      \/ e_status (set_status (VNum 400) error_404) = VNum 400).
Proof.
  split; [reflexivity|].
  apply (updateFlow_rejection_status host_rejecting_404 (VStr "f1") (VRef 2)).
  reflexivity.
Defined.

(** X11 at a store that updates, and at one that throws with code "404". *)
Lemma updateFlow_outcome_witness :
  outer (updateFlow host_flow_ok (VStr "f1") (VRef 2)) = Some (Fulfilled (VStr "f1"))
  /\ outer (updateFlow host_flow_throwing (VStr "f1") (VRef 2))
     = Some (Rejected (set_status (VNum 400) error_string_404)).
Proof.
  destruct (updateFlow_outcome host_flow_ok (VStr "f1") (VRef 2)) as (Hok & _).
  destruct (updateFlow_outcome host_flow_throwing (VStr "f1") (VRef 2)) as (_ & Hthrow).
  split.
  - rewrite (Hok eq_refl). reflexivity.
  - rewrite (Hthrow error_string_404 eq_refl ltac:(decided)). reflexivity.
Defined.

(** X12 at a store that removes the flow, and at one that throws. *)
Lemma deleteFlow_bound_log_witness :
  h_log host_flow_ok = Some sample_log
  /\ outer (deleteFlow host_flow_ok (VStr "f1")) = Some (Fulfilled VUndefined)
  /\ outer (deleteFlow host_flow_throwing (VStr "f1"))
     = Some (Rejected (set_status (VNum 400) error_string_404)).
Proof.
  split; [reflexivity|].
  destruct (deleteFlow_bound_log host_flow_ok sample_log (VStr "f1") eq_refl)
    as (Hok & _ & _).
  destruct (deleteFlow_bound_log host_flow_throwing sample_log (VStr "f1") eq_refl)
    as (_ & _ & Hthrow).
  split.
  - rewrite (Hok eq_refl). reflexivity.
  - rewrite (Hthrow error_string_404 eq_refl ltac:(decided)). reflexivity.
Defined.

(** X13 at a store that removes the flow, on a host without [log]. *)
Lemma deleteFlow_unbound_log_witness :
  h_log (with_log None host_flow_ok) = None
  /\ outer (deleteFlow (with_log None host_flow_ok) (VStr "f1")) = None
  /\ unhandled (deleteFlow (with_log None host_flow_ok) (VStr "f1"))
     = [log_not_defined (with_log None host_flow_ok)]
  /\ outer (deleteFlow (with_log None host_throwing_404) (VStr "f1"))
     = Some (Rejected (log_not_defined (with_log None host_throwing_404))).
Proof.
  split; [reflexivity|].
  destruct (deleteFlow_unbound_log (with_log None host_flow_ok) (VStr "f1") eq_refl)
    as (_ & _ & Hok & _).
  destruct (deleteFlow_unbound_log (with_log None host_throwing_404) (VStr "f1") eq_refl)
    as (_ & _ & _ & Hthrow).
  destruct (Hok eq_refl) as [Ho Hu].
  split; [exact Ho|]. split; [exact Hu|]. apply (Hthrow error_404). reflexivity.
Defined.

(** *** setFlows, the shape of the trace *)

(** X2. Whatever the host, the options and the store do, the first thing
    [setFlows] does is to write the audit record with the deployment type of
    the call (the type the options carry, "full" when they carry none or the
    empty string); it calls at most one write entry point of the store, and
    it reads the active flow set at most once. *)
Theorem setFlows_trace_shape (h : Host) (opts : SetFlowsOpts) (ty : string) :
  ((sf_deploymentType opts = None \/ sf_deploymentType opts = Some "") /\ ty = "full")
  \/ (sf_deploymentType opts = Some ty /\ ty ≠ "") ->
  let s := setFlows h opts in
  (exists rest,
      trace s = EAudit RuntimeLog [("event", VStr "flows.set"); ("type", VStr ty)]
                :: rest)
  /\ (length (List.filter is_write (trace s)) <= 1)%nat
  /\ (length (List.filter (fun ev => bool_decide (ev = EGetFlows)) (trace s)) <= 1)%nat.
Proof.
  intros Hgiven s. subst s. apply deployment_type_given in Hgiven.
  unfold setFlows, setFlows_reaction. rewrite Hgiven.
  destruct (decide (ty = "reload")) as [Hr|Hr].
  - exec. destruct (n_loadFlows (h_nodes h)) as [[r|e|]|e]; cbn;
      destruct (h_log h) as [lg|]; cbn;
      (split; [eexists; reflexivity|]); split; vm_compute; lia.
  - destruct (sf_flows opts) as [payload|]; [|exec; split;
      [eexists; reflexivity|split; vm_compute; lia]].
    destruct (rev payload) as [r|]; exec.
    + destruct (strict_eq (get_rev (n_getFlows (h_nodes h))) (get_rev payload));
        cbn; [|split; [eexists; reflexivity|split; vm_compute; lia]].
      destruct (n_setFlows (h_nodes h) (flows payload) ty)
        as [[r0|e|]|e]; cbn;
        destruct (h_log h) as [lg|]; cbn;
        (split; [eexists; reflexivity|]); split; vm_compute; lia.
    + destruct (n_setFlows (h_nodes h) (flows payload) ty)
        as [[r0|e|]|e]; cbn;
        destruct (h_log h) as [lg|]; cbn;
        (split; [eexists; reflexivity|]); split; vm_compute; lia.
Qed.

(** X2 at a deployment of type nodes, and at one that names no type and
    declares the revision of the sample store. *)
Lemma setFlows_trace_shape_witness :
  (exists rest,
      trace (setFlows host_succeeding opts_nodes)
      = EAudit RuntimeLog [("event", VStr "flows.set"); ("type", VStr "nodes")] :: rest)
  /\ (exists rest,
      trace (setFlows host_succeeding opts_current)
      = EAudit RuntimeLog [("event", VStr "flows.set"); ("type", VStr "full")] :: rest).
Proof.
  split.
  - apply (setFlows_trace_shape host_succeeding opts_nodes "nodes").
    right. split; [reflexivity|discriminate].
  - apply (setFlows_trace_shape host_succeeding opts_current "full").
    left. split; [left; reflexivity|reflexivity].
Defined.

(** *** getNodeCredentials, further *)

Lemma NoDup_fmap_elem_inj {A B} (f : A -> B) (l : list A) (x y : A) :
  NoDup (f <$> l) -> x ∈ l -> y ∈ l -> f x = f y -> x = y.
Proof.
  induction l as [|a l IH]; intros Hnd Hx Hy Hf.
  - apply elem_of_nil in Hx. contradiction.
  - cbn in Hnd. apply NoDup_cons in Hnd as [Hnotin Hnd].
    apply elem_of_cons in Hx as [->|Hx]; apply elem_of_cons in Hy as [->|Hy].
    + reflexivity.
    + destruct Hnotin. rewrite Hf. apply list_elem_of_fmap. exists y. split; auto.
    + destruct Hnotin. rewrite <- Hf. apply list_elem_of_fmap. exists x. split; auto.
    + apply IH; assumption.
Qed.

(** With pairwise different output keys, each turn of the loop decides its
    key. *)
Lemma safe_credentials_nodup_lookup (c : gmap string value)
    (def : CredentialDefinition) (entry : string * CredentialField) :
  NoDup (field_key <$> def) -> entry ∈ def -> field_key entry ≠ "__proto__" ->
  safe_credentials (Some def) c !! field_key entry = Some (field_value c entry).
Proof.
  intros Hnd Hin Hp. apply safe_credentials_lookup_entry; [exact Hin|exact Hp|].
  intros e' Hin' Hkey. f_equal.
  apply (NoDup_fmap_elem_inj field_key def); assumption.
Qed.

(** X14. On a host where [log] is bound, [getNodeCredentials] resolves with
    an object without properties exactly when no credentials are stored for
    the node, or every field the definition declares is a field named
    [__proto__] that is not a password (none, when the definition is missing
    or empty), the assignment to which makes no property; without stored
    credentials the definition is not even looked up. *)
Theorem getNodeCredentials_empty (h : Host) (lg : Log) (ty id : value) :
  h_log h = Some lg ->
  (outer (getNodeCredentials h ty id) = Some (Fulfilled ∅)
   <-> n_getCredentials (h_nodes h) id = None
       \/ (forall entry, entry ∈ declared h ty -> field_key entry = "__proto__"))
  /\ (n_getCredentials (h_nodes h) id = None ->
      trace (getNodeCredentials h ty id)
      = [EAudit FreeLog [("event", VStr "credentials.get"); ("type", ty); ("id", id)];
         EGetCredentials id]).
Proof.
  intros Hlog. rewrite getNodeCredentials_run, Hlog. cbv zeta.
  destruct (n_getCredentials (h_nodes h) id) as [c|]; cbn [outer trace].
  2:{ split; [|reflexivity]. split; [intros _; left; reflexivity|reflexivity]. }
  split; [|discriminate]. split.
  - destruct (bool_decide ("hasOwnProperty" ∈ field_names (declared h ty)));
      [discriminate|].
    intros Hout. injection Hout as Hout. right. intros entry Hin.
    destruct (decide (field_key entry = "__proto__")) as [Hp|Hp]; [exact Hp|].
    destruct (safe_credentials_lookup_key c (declared h ty) entry Hin Hp) as [v Hv].
    pose proof (eq_trans (eq_sym (f_equal (fun m => m !! field_key entry) Hout)) Hv)
      as Hempty.
    rewrite lookup_empty in Hempty. discriminate Hempty.
  - intros [Hnone|Hall]; [discriminate Hnone|].
    destruct (bool_decide ("hasOwnProperty" ∈ field_names (declared h ty))) eqn:Hb.
    + apply bool_decide_eq_true in Hb. unfold field_names in Hb.
      apply list_elem_of_fmap in Hb as ([f d] & Hf & Hin). cbn in Hf. subst f.
      specialize (Hall _ Hin). unfold field_key in Hall. cbn [fst snd] in Hall.
      destruct (String.eqb (type d) "password"); vm_compute in Hall;
        discriminate Hall.
    + f_equal. f_equal. apply map_eq. intros k. rewrite lookup_empty.
      destruct (safe_credentials (Some (declared h ty)) c !! k) as [v|] eqn:Hv;
        [|reflexivity].
      apply safe_credentials_lookup_Some in Hv as (Hp & entry & Hin & Hkey & _).
      destruct Hp. rewrite <- Hkey. apply Hall, Hin.
Qed.

(** X15. [getNodeCredentials] audits before it reads: on a host that binds
    nothing to [log] it rejects with the [ReferenceError] without a call of
    the store, so neither the credentials nor the definition are read. *)
Theorem getNodeCredentials_unbound_log (h : Host) (ty id : value) :
  h_log h = None ->
  getNodeCredentials h ty id
  = mkState [] (Some (Rejected (log_not_defined h))) [].
Proof.
  intros Hlog. unfold getNodeCredentials. exec. rewrite Hlog. reflexivity.
Qed.


(** The declared fields whose assignment makes a property. *)
Lemma safe_credentials_size (c : gmap string value) (def : CredentialDefinition) :
  (size (safe_credentials (Some def) c) <= length def)%nat
  /\ (NoDup (field_key <$> def) ->
      size (safe_credentials (Some def) c)
      = length (List.filter (fun e => negb (String.eqb (field_key e) "__proto__")) def)).
Proof.
  induction def as [|entry def IH] using rev_ind.
  - split; [|intros _]; reflexivity.
  - rewrite safe_credentials_snoc, length_app, List.filter_app, length_app.
    cbn [length List.filter]. destruct IH as [IHle IHeq]. unfold assign.
    destruct (String.eqb (field_key entry) "__proto__") eqn:Hp; cbn [negb length].
    + split; [lia|]. intros Hnd. rewrite fmap_app in Hnd.
      apply NoDup_app in Hnd as (Hnd & _ & _). rewrite IHeq by exact Hnd. lia.
    + split.
      * destruct (safe_credentials (Some def) c !! field_key entry) as [v|] eqn:Hv.
        -- rewrite map_size_insert_Some by eauto. lia.
        -- rewrite map_size_insert_None by exact Hv. lia.
      * intros Hnd. rewrite fmap_app in Hnd.
        apply NoDup_app in Hnd as (Hnd & Hdisj & _).
        assert (Hnone : safe_credentials (Some def) c !! field_key entry = None).
        { destruct (safe_credentials (Some def) c !! field_key entry) as [v|] eqn:Hv;
            [|reflexivity].
          apply safe_credentials_lookup_Some in Hv as (_ & e0 & Hin & Hkey & _).
          destruct (Hdisj (field_key entry)).
          - rewrite <- Hkey. apply list_elem_of_fmap. exists e0. split; auto.
          - constructor. }
        rewrite map_size_insert_None by exact Hnone. rewrite IHeq by exact Hnd. lia.
Qed.

(** X17. When credentials are stored, the safe credentials have at most as
    many fields as the definition declares; when the output keys of the
    declared fields ([has_f] for a password [f], [f] otherwise) are pairwise
    different, they have exactly one field for each declared field other
    than a non-password field named [__proto__]. *)
Theorem getNodeCredentials_size (h : Host) (ty id : value)
    (c out : gmap string value) :
  n_getCredentials (h_nodes h) id = Some c ->
  outer (getNodeCredentials h ty id) = Some (Fulfilled out) ->
  (size out <= length (declared h ty))%nat
  /\ (NoDup (field_key <$> declared h ty) ->
      size out
      = length (List.filter (fun e => negb (String.eqb (field_key e) "__proto__"))
                  (declared h ty))).
Proof.
  intros Hc Hout. apply getNodeCredentials_resolved in Hout. rewrite Hc in Hout.
  subst out. apply safe_credentials_size.
Qed.

(** X18. When the output keys of the declared fields are pairwise different,
    the order in which the definition enumerates its fields does not matter:
    two definitions with the same fields give the same run of
    [getNodeCredentials]. *)
Theorem getNodeCredentials_order (h : Host) (ty id : value)
    (def def' : CredentialDefinition) :
  NoDup (field_key <$> def) ->
  def ≡ₚ def' ->
  getNodeCredentials (with_definition (Some def) h) ty id
  = getNodeCredentials (with_definition (Some def') h) ty id.
Proof.
  intros Hnd Hperm.
  assert (Hnd' : NoDup (field_key <$> def')).
  { rewrite <- Hperm. exact Hnd. }
  assert (Hsame : forall c, safe_credentials (Some def) c = safe_credentials (Some def') c).
  { intros c. apply map_eq. intros k.
    destruct (safe_credentials (Some def) c !! k) as [v|] eqn:Hv.
    - apply safe_credentials_lookup_Some in Hv as (Hp & entry & Hin & <- & <-).
      symmetry. apply safe_credentials_nodup_lookup; [exact Hnd'| |exact Hp].
      rewrite <- Hperm. exact Hin.
    - destruct (safe_credentials (Some def') c !! k) as [v'|] eqn:Hv'; [|reflexivity].
      apply safe_credentials_lookup_Some in Hv' as (Hp & entry & Hin & <- & <-).
      rewrite safe_credentials_nodup_lookup in Hv;
        [discriminate Hv|exact Hnd| |exact Hp].
      rewrite Hperm. exact Hin. }
  assert (Hhas : bool_decide ("hasOwnProperty" ∈ field_names def)
                 = bool_decide ("hasOwnProperty" ∈ field_names def')).
  { apply bool_decide_ext. unfold field_names. rewrite Hperm. reflexivity. }
  rewrite !getNodeCredentials_run.
  change (h_log (with_definition (Some def) h)) with (h_log h).
  change (h_log (with_definition (Some def') h)) with (h_log h).
  change (n_getCredentials (h_nodes (with_definition (Some def) h)) id)
    with (n_getCredentials (h_nodes h) id).
  change (n_getCredentials (h_nodes (with_definition (Some def') h)) id)
    with (n_getCredentials (h_nodes h) id).
  change (declared (with_definition (Some def) h) ty) with def.
  change (declared (with_definition (Some def') h) ty) with def'.
  destruct (h_log h); [|reflexivity].
  destruct (n_getCredentials (h_nodes h) id) as [c|]; [|reflexivity].
  cbv zeta. rewrite Hhas, Hsame. reflexivity.
Qed.

(** X22. The safe credentials say of a password only whether it is set: for
    two stored credential objects that hold the same under every declared
    field that is not a password, and under every declared password agree on
    whether the value is set (present and none of [undefined], [null] and
    [""]) and, where the field is named like a property of
    [Object.prototype], on whether there is a value at all, the runs of
    [getNodeCredentials] are the same. *)
Theorem getNodeCredentials_noninterference (h : Host) (ty id : value)
    (c1 c2 : gmap string value) :
  (forall f d, (f, d) ∈ declared h ty -> type d = "password" ->
     (stored_value_set c1 f <-> stored_value_set c2 f)
     /\ (f ∈ Object_prototype_names -> (c1 !! f = None <-> c2 !! f = None))) ->
  (forall f d, (f, d) ∈ declared h ty -> type d ≠ "password" -> c1 !! f = c2 !! f) ->
  getNodeCredentials (with_credentials (Some c1) h) ty id
  = getNodeCredentials (with_credentials (Some c2) h) ty id.
Proof.
  intros Hpw Hplain. rewrite !getNodeCredentials_run.
  change (h_log (with_credentials (Some c1) h)) with (h_log h).
  change (h_log (with_credentials (Some c2) h)) with (h_log h).
  change (n_getCredentials (h_nodes (with_credentials (Some c1) h)) id) with (Some c1).
  change (n_getCredentials (h_nodes (with_credentials (Some c2) h)) id) with (Some c2).
  change (declared (with_credentials (Some c1) h) ty) with (declared h ty).
  change (declared (with_credentials (Some c2) h) ty) with (declared h ty).
  destruct (h_log h); [|reflexivity]. cbv zeta.
  rewrite (safe_credentials_low_equiv _ c1 c2); [reflexivity| |exact Hplain].
  intros f d Hin Hty. destruct (Hpw f d Hin Hty) as [Hset Hnone].
  assert (Hiff : has_value c1 f = true <-> has_value c2 f = true).
  { rewrite !has_value_spec. split.
    - intros [H|[H Hn]]; [left; apply Hset, H|right].
      split; [apply Hnone; assumption|exact Hn].
    - intros [H|[H Hn]]; [left; apply Hset, H|right].
      split; [apply Hnone; assumption|exact Hn]. }
  destruct (has_value c1 f), (has_value c2 f); try reflexivity.
  - symmetry. apply Hiff. reflexivity.
  - apply Hiff. reflexivity.
Qed.

(** *** Across the API *)

(** X19. Rejections nobody handles.  [getFlows], [addFlow], [getFlow],
    [updateFlow] and [getNodeCredentials] never leave one.  [setFlows] leaves
    none on a host where [log] is bound.  [deleteFlow] leaves one exactly
    when the store's promise rejects, or fulfils on a host where [log] is not
    bound. *)
Theorem unhandled_rejections (h : Host) :
  unhandled (getFlows h) = []
  /\ (forall flow, unhandled (addFlow h flow) = [])
  /\ (forall id, unhandled (getFlow h id) = [])
  /\ (forall id flow, unhandled (updateFlow h id flow) = [])
  /\ (forall ty id, unhandled (getNodeCredentials h ty id) = [])
  /\ (forall opts, unhandled (setFlows h opts) ≠ [] -> h_log h = None)
  /\ (forall id,
        unhandled (deleteFlow h id) ≠ []
        <-> (exists e, n_removeFlow (h_nodes h) id = Returns (Rejects e))
            \/ (n_removeFlow (h_nodes h) id = Returns (Fulfils tt) /\ h_log h = None)).
Proof.
  split; [reflexivity|].
  split.
  { intros flow. unfold addFlow. exec.
    destruct (n_addFlow (h_nodes h) flow) as [[?|?|]|?]; reflexivity. }
  split.
  { intros id. unfold getFlow. exec.
    destruct (truthy (n_getFlow (h_nodes h) id)); reflexivity. }
  split.
  { intros id flow. unfold updateFlow. exec.
    destruct (n_updateFlow (h_nodes h) id flow) as [[[]|e0|]|e0]; cbn;
      try reflexivity.
    destruct (strict_eq (e_code e0) (VNum 404)); reflexivity. }
  split.
  { intros ty id. rewrite getNodeCredentials_run.
    destruct (h_log h); [|reflexivity].
    destruct (n_getCredentials (h_nodes h) id); reflexivity. }
  split.
  { intros opts. destruct (h_log h) as [lg|] eqn:Hlog; [|reflexivity].
    intros Hne. destruct Hne. setFlows_paths h opts Hset.
    all: rewrite ?Hlog; reflexivity. }
  intros id. unfold deleteFlow. exec.
  destruct (n_removeFlow (h_nodes h) id) as [[[]|e0|]|e0]; cbn.
  4: destruct (strict_eq (e_code e0) (VNum 404)); cbn.
  all: destruct (h_log h) as [lg|]; cbn.
  all: split;
    [ intros Hne; try (destruct Hne; reflexivity);
      first [ left; eexists; reflexivity | right; split; reflexivity ]
    | intros [[e He]|[He Hl]]; try discriminate He; try discriminate Hl;
      discriminate ].
Qed.

(** *** The further properties of the credentials at the sample hosts *)

(** X14 at a node without credentials, whatever is declared. *)
Lemma getNodeCredentials_empty_witness :
  h_log host_without_credentials = Some sample_log
  /\ outer (getNodeCredentials host_without_credentials (VStr "t") (VStr "n"))
     = Some (Fulfilled ∅)
  /\ outer (getNodeCredentials host_alice (VStr "t") (VStr "n")) ≠ Some (Fulfilled ∅).
Proof.
  split; [reflexivity|].
  destruct (getNodeCredentials_empty host_without_credentials sample_log
              (VStr "t") (VStr "n") eq_refl) as (Hiff & _).
  destruct (getNodeCredentials_empty host_alice sample_log
              (VStr "t") (VStr "n") eq_refl) as (Hiff' & _).
  split.
  - apply Hiff. left. reflexivity.
  - intros Hout. apply Hiff' in Hout as [H|H]; [discriminate H|].
    specialize (H ("user", mkField "other")).
    assert (Hkey : field_key ("user", mkField "other") = "__proto__").
    { apply H. decided. }
    discriminate Hkey.
Defined.

(** X15 at the redaction example on a host without [log]. *)
Lemma getNodeCredentials_unbound_log_witness :
  trace (getNodeCredentials (with_log None host_alice) (VStr "t") (VStr "n")) = []
  /\ outer (getNodeCredentials (with_log None host_alice) (VStr "t") (VStr "n"))
     = Some (Rejected (log_not_defined (with_log None host_alice))).
Proof.
  rewrite (getNodeCredentials_unbound_log (with_log None host_alice)
             (VStr "t") (VStr "n") eq_refl).
  split; reflexivity.
Defined.


(** X17 at the redaction example, two fields for two declared fields, and at
    a definition with a field named [__proto__], one field for two. *)
Lemma getNodeCredentials_size_witness :
  size ({[ "has_password" := VBool true; "user" := VStr "alice" ]} : gmap string value)
  = 2%nat
  /\ size ({[ "user" := VStr "alice" ]} : gmap string value) = 1%nat.
Proof.
  split.
  - apply (getNodeCredentials_size host_alice (VStr "t") (VStr "n") credentials_alice
             {[ "has_password" := VBool true; "user" := VStr "alice" ]});
      [reflexivity|vm_compute; reflexivity|decided].
  - apply (getNodeCredentials_size host_proto_text (VStr "t") (VStr "n")
             {[ "user" := VStr "alice" ]} {[ "user" := VStr "alice" ]});
      [reflexivity|vm_compute; reflexivity|decided].
Defined.

(** X18 at the redaction example and its definition the other way round. *)
Lemma getNodeCredentials_order_witness :
  getNodeCredentials (with_definition (Some definition_alice) host_alice)
    (VStr "t") (VStr "n")
  = getNodeCredentials (with_definition (Some definition_alice_swapped) host_alice)
      (VStr "t") (VStr "n").
Proof.
  apply (getNodeCredentials_order host_alice (VStr "t") (VStr "n")
           definition_alice definition_alice_swapped).
  - decided.
  - apply perm_swap.
Defined.

(** X22 at the redaction example and the same user with another password and
    a field nobody declared. *)
Lemma getNodeCredentials_noninterference_witness :
  getNodeCredentials (with_credentials (Some credentials_alice) host_alice)
    (VStr "t") (VStr "n")
  = getNodeCredentials (with_credentials (Some credentials_alice') host_alice)
      (VStr "t") (VStr "n").
Proof.
  apply (getNodeCredentials_noninterference host_alice (VStr "t") (VStr "n")
           credentials_alice credentials_alice').
  - intros f d Hin Hty.
    apply elem_of_cons in Hin as [Heq|Hin].
    + injection Heq as -> ->. split.
      * split; intros _;
          [exists (VStr "hunter2")|exists (VStr "secret")];
          (split; [reflexivity|repeat split; discriminate]).
      * intros Hin. apply (bool_decide_pack _) in Hin. vm_compute in Hin.
        destruct Hin.
    + apply elem_of_cons in Hin as [Heq|Hin].
      * injection Heq as -> ->. discriminate Hty.
      * apply elem_of_nil in Hin. contradiction.
  - intros f d Hin Hty.
    apply elem_of_cons in Hin as [Heq|Hin].
    + injection Heq as -> ->. destruct Hty. reflexivity.
    + apply elem_of_cons in Hin as [Heq|Hin].
      * injection Heq as -> ->. reflexivity.
      * apply elem_of_nil in Hin. contradiction.
Defined.

(** X19 at a store whose remove-operation rejects. *)
Lemma unhandled_rejections_witness :
  unhandled (deleteFlow host_rejecting_404 (VStr "f1")) ≠ []
  /\ unhandled (setFlows host_failing opts_norev) = [].
Proof.
  destruct (unhandled_rejections host_rejecting_404) as (_ & _ & _ & _ & _ & _ & Hdel).
  destruct (unhandled_rejections host_failing) as (_ & _ & _ & _ & _ & Hset & _).
  split.
  - apply Hdel. left. exists error_404. reflexivity.
  - destruct (unhandled (setFlows host_failing opts_norev)) as [|e l] eqn:Hu;
      [reflexivity|].
    assert (Hnone : h_log host_failing = None).
    { apply (Hset opts_norev). rewrite Hu. discriminate. }
    discriminate Hnone.
Defined.
